(** * Video-streaming backend: OTP middleware and user controller

    A shallow embedding of the OTP verification middleware
    ([verifyOtp]) and of the user controller ([refreshAccessToken],
    [updateUserAvatar], [updateUserCoverImage], [getUserChannelProfile],
    [getWatchHistory], [pushVideoToWatchHistory]).

    The document store, the local disk and the media CDN are one explicit
    [World]; a handler is a function from a world to a completion (a
    value, or whatever it threw) and the world it leaves behind.  Effects
    performed before a [throw] stay performed, as in the JavaScript. *)

From Stdlib Require Import String Ascii List ZArith Bool Lia.
Import ListNotations.
Local Open Scope string_scope.
Local Open Scope list_scope.

(** ** JavaScript string primitives used by the handlers

    Strings are byte strings.  [trim], [trimStart], [toLowerCase] and
    [parseInt] are the JavaScript functions restricted to ASCII text: on a
    string with a byte above 127 JavaScript consults the Unicode tables
    (U+00A0 is white space, the lower case of U+00C9 is U+00E9), which are
    not modelled, so every property stated through one of them assumes its
    argument to be ASCII.  Numbers produced by [parseInt] are exact
    integers, which is what IEEE doubles give below 2^53. *)
Module Js.

(** [!s] is false exactly for a defined, non-empty string. *)
Definition truthy (s : option string) : bool :=
  match s with
  | None => false
  | Some s => negb (s =? "")
  end.

(** [a || b] on possibly-undefined strings. *)
Definition or_else (a b : option string) : option string :=
  if truthy a then a else b.

Definition is_space (c : ascii) : bool :=
  let n := nat_of_ascii c in
  (Nat.eqb n 32 || (Nat.leb 9 n && Nat.leb n 13))%bool.

Fixpoint trimStart (s : string) : string :=
  match s with
  | EmptyString => EmptyString
  | String c s' => if is_space c then trimStart s' else s
  end.

Fixpoint trimEnd (s : string) : string :=
  match s with
  | EmptyString => EmptyString
  | String c s' =>
      match trimEnd s' with
      | EmptyString => if is_space c then EmptyString else String c EmptyString
      | t => String c t
      end
  end.

Definition trim (s : string) : string := trimEnd (trimStart s).

Definition lower_char (c : ascii) : ascii :=
  let n := nat_of_ascii c in
  if (Nat.leb 65 n && Nat.leb n 90)%bool then ascii_of_nat (n + 32) else c.

Fixpoint toLowerCase (s : string) : string :=
  match s with
  | EmptyString => EmptyString
  | String c s' => String (lower_char c) (toLowerCase s')
  end.

(** [s.includes(sub)] *)
Fixpoint includes (s sub : string) : bool :=
  (prefix sub s ||
   match s with
   | EmptyString => false
   | String _ s' => includes s' sub
   end)%bool.

(** [s.split(sep)] for a one-character separator. *)
Fixpoint split (sep : ascii) (s : string) : list string :=
  match s with
  | EmptyString => [EmptyString]
  | String c s' =>
      if Ascii.eqb c sep then EmptyString :: split sep s'
      else match split sep s' with
           | [] => [String c EmptyString]
           | h :: t => String c h :: t
           end
  end.

Definition digit (c : ascii) : option Z :=
  let n := nat_of_ascii c in
  if (Nat.leb 48 n && Nat.leb n 57)%bool then Some (Z.of_nat (n - 48)) else None.

(** The longest prefix of decimal digits, as a number; [None] when
    there is no digit at all. *)
Fixpoint digits (s : string) (acc : option Z) : option Z :=
  match s with
  | EmptyString => acc
  | String c s' =>
      match digit c with
      | Some d =>
          digits s' (Some (10 * match acc with Some a => a | None => 0 end + d)%Z)
      | None => acc
      end
  end.

(** [parseInt(s, 10)]; [None] is NaN.  An undefined argument is
    converted to the string "undefined", which has no digits. *)
Definition parseInt (s : option string) : option Z :=
  match s with
  | None => None
  | Some s =>
      match trimStart s with
      | String "-"%char r => option_map Z.opp (digits r None)
      | String "+"%char r => digits r None
      | t => digits t None
      end
  end.

(** [n || d] on numbers: NaN and 0 are falsy. *)
Definition num_or (n : option Z) (d : Z) : Z :=
  match n with
  | None => d
  | Some n => if (n =? 0)%Z then d else n
  end.

End Js.

(** ** Documents *)

Definition ObjectId := string.

Module User.
Record t := mk {
  _id : ObjectId;
  username : string;
  email : string;
  fullName : string;
  password : string;
  avatar : string;
  coverImage : option string;
  verified : bool;
  createdAt : Z;
  watchHistory : list ObjectId;
  refreshToken : option string
}.

Definition push_watchHistory (v : ObjectId) (u : t) : t :=
  mk (_id u) (username u) (email u) (fullName u) (password u) (avatar u)
     (coverImage u) (verified u) (createdAt u) (watchHistory u ++ [v])
     (refreshToken u).

Definition set_refreshToken (r : option string) (u : t) : t :=
  mk (_id u) (username u) (email u) (fullName u) (password u) (avatar u)
     (coverImage u) (verified u) (createdAt u) (watchHistory u) r.

Definition set_avatar (a : string) (u : t) : t :=
  mk (_id u) (username u) (email u) (fullName u) (password u) a
     (coverImage u) (verified u) (createdAt u) (watchHistory u)
     (refreshToken u).

Definition set_coverImage (c : string) (u : t) : t :=
  mk (_id u) (username u) (email u) (fullName u) (password u) (avatar u)
     (Some c) (verified u) (createdAt u) (watchHistory u) (refreshToken u).
End User.

Module Video.
Record t := mk {
  _id : ObjectId;
  owner : ObjectId;
  isPublished : bool;
  title : string;
  thumbnail : string;
  duration : Z;
  views : Z;
  createdAt : Z
}.
End Video.

Module Subscription.
Record t := mk {
  subscriber : ObjectId;
  channel : ObjectId
}.
End Subscription.

Module Otp.
Record t := mk {
  email : string;
  otp : string;
  context : string;
  expires : Z
}.
End Otp.

(** The file multer leaves in [req.file]. *)
Module File.
Record t := mk {
  path : string;
  mimetype : string
}.
End File.

(** ** The world a request runs against *)

Record World := mkWorld {
  users : list User.t;
  videos : list Video.t;
  subscriptions : list Subscription.t;
  otps : list Otp.t;
  (** paths present on the local disk *)
  disk : list string;
  (** calls made to the media CDN: [(localPath, folder)] uploads and
      deleted URLs, most recent first *)
  cdn_uploads : list (string * string);
  cdn_deleted : list string
}.

Definition with_users (us : list User.t) (w : World) : World :=
  mkWorld us (videos w) (subscriptions w) (otps w) (disk w)
          (cdn_uploads w) (cdn_deleted w).

Definition with_otps (os : list Otp.t) (w : World) : World :=
  mkWorld (users w) (videos w) (subscriptions w) os (disk w)
          (cdn_uploads w) (cdn_deleted w).

Definition with_disk (d : list string) (w : World) : World :=
  mkWorld (users w) (videos w) (subscriptions w) (otps w) d
          (cdn_uploads w) (cdn_deleted w).

Definition with_cdn_uploads (l : list (string * string)) (w : World) : World :=
  mkWorld (users w) (videos w) (subscriptions w) (otps w) (disk w)
          l (cdn_deleted w).

Definition with_cdn_deleted (l : list string) (w : World) : World :=
  mkWorld (users w) (videos w) (subscriptions w) (otps w) (disk w)
          (cdn_uploads w) l.

(** ** Exceptions and completions *)

Inductive Thrown :=
| ApiError (statusCode : Z) (message : string)
| ReferenceError (identifier : string)
| TypeError (message : string)
| SystemError (code : string) (path : string)
| LibraryError (message : string).

(** [error.message] *)
Definition message_of (e : Thrown) : string :=
  match e with
  | ApiError _ m => m
  | ReferenceError x => x ++ " is not defined"
  | TypeError m => m
  | SystemError c p => c ++ ": " ++ p
  | LibraryError m => m
  end.

Inductive completion (A : Type) :=
| Normal (a : A)
| Throw (e : Thrown).
Arguments Normal {A} a.
Arguments Throw {A} e.

Definition M (A : Type) := World -> completion A * World.

Definition ret {A} (a : A) : M A := fun w => (Normal a, w).

Definition throw {A} (e : Thrown) : M A := fun w => (Throw e, w).

Definition bind {A B} (c : M A) (k : A -> M B) : M B :=
  fun w =>
    match c w with
    | (Normal a, w') => k a w'
    | (Throw e, w') => (Throw e, w')
    end.

(** [try { c } catch (error) { h error }]: the world keeps what [c] did. *)
Definition try_catch {A} (c : M A) (h : Thrown -> M A) : M A :=
  fun w =>
    match c w with
    | (Normal a, w') => (Normal a, w')
    | (Throw e, w') => h e w'
    end.

Definition gets {A} (f : World -> A) : M A := fun w => (Normal (f w), w).

Definition modify (f : World -> World) : M unit := fun w => (Normal tt, f w).

(** [if (b) throw e] *)
Definition throw_if (b : bool) (e : Thrown) : M unit :=
  if b then throw e else ret tt.

(** The result of a library call that either returns or throws. *)
Definition lift {A} (r : Thrown + A) : M A :=
  match r with
  | inl e => throw e
  | inr a => ret a
  end.

Declare Scope handler_scope.
Delimit Scope handler_scope with handler.
Notation "x <- c ;; k" := (bind c (fun x => k))
  (at level 100, c at next level, right associativity) : handler_scope.
Notation "c ;; k" := (bind c (fun _ => k))
  (at level 100, right associativity) : handler_scope.
Local Open Scope handler_scope.

(** ** Responses *)

Record OwnerView := mkOwnerView {
  ov_id : ObjectId;
  ov_fullName : string;
  ov_username : string;
  ov_avatar : string;
  ov_verified : bool
}.

Record VideoSummary := mkVideoSummary {
  vs_id : ObjectId;
  vs_thumbnail : string;
  vs_title : string;
  vs_duration : Z;
  vs_views : Z;
  vs_isPublished : bool;
  vs_owner : option OwnerView
}.

Record ChannelProfile := mkChannelProfile {
  cp_id : ObjectId;
  cp_fullName : string;
  cp_username : string;
  cp_subscribersCount : nat;
  cp_channelsSubscibedToCount : nat;
  cp_isSubscribed : bool;
  cp_avatar : string;
  cp_coverImage : option string;
  cp_email : string;
  cp_verified : bool;
  cp_createdAt : Z
}.

(** [.select("watchHistory _id username")] *)
Record HistoryView := mkHistoryView {
  hv_id : ObjectId;
  hv_username : string;
  hv_watchHistory : list ObjectId
}.

(** [.select("-password")] *)
Record UserView := mkUserView {
  uv_id : ObjectId;
  uv_username : string;
  uv_email : string;
  uv_fullName : string;
  uv_avatar : string;
  uv_coverImage : option string;
  uv_verified : bool;
  uv_createdAt : Z;
  uv_watchHistory : list ObjectId;
  uv_refreshToken : option string
}.

Definition select_without_password (u : User.t) : UserView :=
  mkUserView (User._id u) (User.username u) (User.email u) (User.fullName u)
             (User.avatar u) (User.coverImage u) (User.verified u)
             (User.createdAt u) (User.watchHistory u) (User.refreshToken u).

Inductive Payload :=
| PText (s : string)
| PVideos (l : list VideoSummary)
| PHistory (h : HistoryView)
| PUser (u : option UserView)
| PChannel (c : ChannelProfile)
| PTokens (accessToken refreshToken : string).

(** [new ApiResponse(statusCode, data, message)]; the message is [None]
    where the call leaves it to the constructor's default. *)
Record ApiResponse := mkApiResponse {
  ar_statusCode : Z;
  ar_data : Payload;
  ar_message : option string
}.

(** [res.status(s).cookie(..).json(body)] *)
Record Response := mkResponse {
  status : Z;
  cookies : list (string * string);
  body : ApiResponse
}.

(** ** Store operations *)

(** [User.findById(id)] *)
Definition User_findById (id : ObjectId) : M (option User.t) :=
  gets (fun w => find (fun u => User._id u =? id) (users w)).

(** Apply [f] to the first document whose [_id] is [id]. *)
Fixpoint update_first (id : ObjectId) (f : User.t -> User.t) (l : list User.t)
  : list User.t :=
  match l with
  | [] => []
  | u :: l' => if User._id u =? id then f u :: l' else u :: update_first id f l'
  end.

(** [User.findByIdAndUpdate(id, update, { new: new_ })]: the document
    after the update when [new_] is true, before it otherwise. *)
Definition User_findByIdAndUpdate (id : ObjectId) (f : User.t -> User.t)
           (new_ : bool) : M (option User.t) :=
  old <- User_findById id ;;
  modify (fun w => with_users (update_first id f (users w)) w) ;;
  ret (if new_ then option_map f old else old).

(** [Otp.findOne({ email })] *)
Definition Otp_findOne (email : string) : M (option Otp.t) :=
  gets (fun w => find (fun o => Otp.email o =? email) (otps w)).

Fixpoint delete_first (email : string) (l : list Otp.t) : list Otp.t :=
  match l with
  | [] => []
  | o :: l' => if Otp.email o =? email then l' else o :: delete_first email l'
  end.

(** [Otp.deleteOne({ email })] *)
Definition Otp_deleteOne (email : string) : M unit :=
  modify (fun w => with_otps (delete_first email (otps w)) w).

(** [fs.unlinkSync(path)] *)
Definition unlinkSync (path : string) : M unit :=
  fun w =>
    if existsb (String.eqb path) (disk w)
    then (Normal tt,
          with_disk (filter (fun p => negb (p =? path)) (disk w)) w)
    else (Throw (SystemError "ENOENT" path), w).

(** ** OTP verification middleware *)

Section VerifyOtp.

(** [otpData.isOtpCorrect(otp)], a method of the OTP model. *)
Variable isOtpCorrect : Otp.t -> string -> bool.

Definition route_context (url : string) : option string :=
  nth_error (Js.split "/"%char url) 1.

Definition differs (a : option string) (b : string) : bool :=
  match a with
  | Some a => negb (a =? b)
  | None => true
  end.

(** The middleware; [now] is [new Date()].  A normal completion is the
    call of [next()], and its value is the [req.verifyOtp] it has set. *)
Definition verifyOtp (email otp : option string) (url : string) (now : Z)
  : M bool :=
  throw_if (negb (Js.truthy email) || negb (Js.truthy otp))
           (ApiError 400 "Email and otp is required") ;;
  let email := match email with Some e => e | None => "" end in
  let otp := match otp with Some o => o | None => "" end in
  otpData <- Otp_findOne email ;;
  match otpData with
  | None => throw (ApiError 404 "Otp not found")
  | Some otpData =>
      throw_if (Otp.expires otpData <? now)%Z (ApiError 404 "Otp is expired") ;;
      throw_if (differs (route_context url) (Otp.context otpData))
               (ApiError 404 "Invalid otp") ;;
      throw_if (negb (isOtpCorrect otpData otp)) (ApiError 404 "Invalid otp") ;;
      Otp_deleteOne (Otp.email otpData) ;;
      ret true
  end.

End VerifyOtp.

(** ** Session tokens *)

Record TokenPayload := mkTokenPayload {
  tp_id : option ObjectId
}.

Section Tokens.

(** [jwt.verify(token, process.env.REFRESH_TOKEN_SECRET)] *)
Variable jwt_verify : string -> Thrown + TokenPayload.
(** [user.generateAccessToken()], [user.generateRefreshToken()] *)
Variable generateAccessToken : User.t -> Thrown + string.
Variable generateRefreshToken : User.t -> Thrown + string.

Definition generateAccessAndRefreshTokens (userId : ObjectId)
  : M (string * string) :=
  try_catch
    (user <- User_findById userId ;;
     match user with
     | None => throw (TypeError "Cannot read properties of null")
     | Some user =>
         accessToken <- lift (generateAccessToken user) ;;
         refreshToken <- lift (generateRefreshToken user) ;;
         modify (fun w =>
           with_users (update_first (User._id user)
                         (User.set_refreshToken (Some refreshToken))
                         (users w)) w) ;;
         ret (accessToken, refreshToken)
     end)
    (fun _ => throw (ApiError 500 "Something went wrong")).

Definition same_token (incoming : string) (stored : option string) : bool :=
  match stored with
  | Some s => incoming =? s
  | None => false
  end.

(** [cookie] is [req.cookies.refreshToken], [body_token] is
    [req.body.refreshToken]. *)
Definition refreshAccessToken (cookie body_token : option string)
  : M Response :=
  try_catch
    (let incomingRefreshToken := Js.or_else cookie body_token in
     throw_if (negb (Js.truthy incomingRefreshToken))
              (ApiError 401 "Unauthorized request") ;;
     let incomingRefreshToken :=
       match incomingRefreshToken with Some t => t | None => "" end in
     decodedToken <- lift (jwt_verify incomingRefreshToken) ;;
     user <- match tp_id decodedToken with
             | Some id => User_findById id
             | None => ret None
             end ;;
     match user with
     | None => throw (ApiError 401 "Invalid refresh token")
     | Some user =>
         throw_if (negb (same_token incomingRefreshToken (User.refreshToken user)))
                  (ApiError 401 "Refresh token is expired or used") ;;
         tokens <- generateAccessAndRefreshTokens (User._id user) ;;
         let (accessToken, refreshToken) := tokens in
         ret (mkResponse 200
                [("accessToken", accessToken); ("refreshToken", refreshToken)]
                (mkApiResponse 200 (PTokens accessToken refreshToken)
                               (Some "Access token refreshed")))
     end)
    (fun error =>
       throw (ApiError 401
                (if message_of error =? "" then "Invalid refresh token"
                 else message_of error))).

End Tokens.


(** ** Profile images *)

Section Images.

(** The [secure_url] the CDN answers an upload with, if any. *)
Variable secure_url_of : string -> string -> option string.

(** Modelled from the spec: utils/cloudinary.js is not among the sources;
    the media storage is [upload(localPath, namespace) -> {secure_url}] and
    [delete(url)], and the temporary local path is removed on every exit
    path, whether the upload succeeds or fails; the handlers remove it only
    when they refuse the file, so for a file they accept it is the upload
    that does.  Both calls are recorded in the world. *)
Definition cloudinary_upload (localPath folder : string) : M (option string) :=
  modify (fun w => with_cdn_uploads ((localPath, folder) :: cdn_uploads w) w) ;;
  modify (fun w =>
    with_disk (filter (fun p => negb (p =? localPath)) (disk w)) w) ;;
  ret (secure_url_of localPath folder).

Definition cloudinary_delete (url : string) : M unit :=
  modify (fun w => with_cdn_deleted (url :: cdn_deleted w) w).

(** The identifier [ture] in the options of [updateUserAvatar]: no import,
    declaration or global binds it, so evaluating it throws. *)
Definition ture : M bool := throw (ReferenceError "ture").

Definition updateUserAvatar (user_id : ObjectId) (file : option File.t)
  : M Response :=
  let avatarLocalPath := option_map File.path file in
  throw_if (negb (Js.truthy avatarLocalPath))
           (ApiError 400 "Avatar file is missing") ;;
  match file with
  | None => throw (TypeError "Cannot read properties of undefined")
  | Some file =>
      (if negb (Js.includes (File.mimetype file) "image")
       then unlinkSync (File.path file) ;;
            throw (ApiError 400 "Only images are allowed to upload")
       else ret tt) ;;
      avatar <- cloudinary_upload (File.path file) "videotube/users" ;;
      throw_if (negb (Js.truthy avatar))
               (ApiError 500 "Error while uploading avatar") ;;
      let secure_url := match avatar with Some a => a | None => "" end in
      oldUser <- User_findById user_id ;;
      match oldUser with
      | None => throw (TypeError "Cannot read properties of null")
      | Some oldUser => cloudinary_delete (User.avatar oldUser)
      end ;;
      new_ <- ture ;;
      user <- User_findByIdAndUpdate user_id (User.set_avatar secure_url) new_ ;;
      ret (mkResponse 200 []
             (mkApiResponse 200 (PUser (option_map select_without_password user))
                            (Some "Avatar updated successfully")))
  end.

Definition updateUserCoverImage (user_id : ObjectId) (file : option File.t)
  : M Response :=
  let coverImageLocalPath := option_map File.path file in
  throw_if (negb (Js.truthy coverImageLocalPath))
           (ApiError 400 "Cover file is missing") ;;
  match file with
  | None => throw (TypeError "Cannot read properties of undefined")
  | Some file =>
      (if Js.includes (File.mimetype file) "gif"
          || negb (Js.includes (File.mimetype file) "image")
       then unlinkSync (File.path file) ;;
            throw (ApiError 400 "Only images are allowed to upload")
       else ret tt) ;;
      coverImage <- cloudinary_upload (File.path file) "videotube/users" ;;
      throw_if (negb (Js.truthy coverImage))
               (ApiError 500 "Error while uploading cover image") ;;
      let secure_url := match coverImage with Some a => a | None => "" end in
      oldUser <- User_findById user_id ;;
      match oldUser with
      | Some oldUser =>
          if Js.truthy (User.coverImage oldUser)
          then cloudinary_delete
                 (match User.coverImage oldUser with Some c => c | None => "" end)
          else ret tt
      | None => ret tt
      end ;;
      user <- User_findByIdAndUpdate user_id (User.set_coverImage secure_url) true ;;
      ret (mkResponse 200 []
             (mkApiResponse 200 (PUser (option_map select_without_password user))
                            (Some "coverImage updated successfully")))
  end.

End Images.

(** ** Channel profile *)

(** Values compared by [$in]: an absent [req.user] reaches the store as
    null, a present one as its ObjectId. *)
Inductive bson :=
| BNull
| BObjectId (o : ObjectId).

Definition bson_eqb (a b : bson) : bool :=
  match a, b with
  | BNull, BNull => true
  | BObjectId x, BObjectId y => x =? y
  | _, _ => false
  end.

Definition in_array (v : bson) (arr : list bson) : bool :=
  existsb (bson_eqb v) arr.

Definition viewer_id (viewer : option ObjectId) : bson :=
  match viewer with
  | Some v => BObjectId v
  | None => BNull
  end.

(** The aggregation pipeline of [getUserChannelProfile], stage by stage
    on one matched document. *)
Definition channel_document (w : World) (viewer : option ObjectId) (u : User.t)
  : ChannelProfile :=
  let subscribers :=
    filter (fun s => Subscription.channel s =? User._id u) (subscriptions w) in
  let subscribedTo :=
    filter (fun s => Subscription.subscriber s =? User._id u) (subscriptions w) in
  let subscribersCount := length subscribers in
  let channelsSubscibedToCount := length subscribedTo in
  let isSubscribed :=
    if in_array (viewer_id viewer)
                (map (fun s => BObjectId (Subscription.subscriber s)) subscribers)
    then true else false in
  mkChannelProfile (User._id u) (User.fullName u) (User.username u)
                   subscribersCount channelsSubscibedToCount isSubscribed
                   (User.avatar u) (User.coverImage u) (User.email u)
                   (User.verified u) (User.createdAt u).

Definition channel_pipeline (w : World) (username : string)
           (viewer : option ObjectId) : list ChannelProfile :=
  map (channel_document w viewer)
      (filter (fun u => User.username u =? Js.toLowerCase username) (users w)).

(** [username] is [req.params.username], [viewer] is [req.user?._id]. *)
Definition getUserChannelProfile (username : option string)
           (viewer : option ObjectId) : M Response :=
  throw_if (negb (Js.truthy (option_map Js.trim username)))
           (ApiError 400 "username is missing") ;;
  let username := match username with Some n => n | None => "" end in
  channel <- gets (fun w => channel_pipeline w username viewer) ;;
  match channel with
  | [] => throw (ApiError 404 "channel does not exists")
  | c :: _ =>
      ret (mkResponse 200 []
             (mkApiResponse 200 (PChannel c)
                            (Some "User channel fetched successfully")))
  end.

(** ** Watch history *)

Fixpoint insert_createdAt_desc (v : Video.t) (l : list Video.t) : list Video.t :=
  match l with
  | [] => [v]
  | x :: l' =>
      if (Video.createdAt x <? Video.createdAt v)%Z then v :: l
      else x :: insert_createdAt_desc v l'
  end.

(** [$sort: { createdAt: -1 }] *)
Definition sort_createdAt_desc (l : list Video.t) : list Video.t :=
  fold_right insert_createdAt_desc [] l.

(** The inner [$lookup] into users with its [$project]. *)
Definition lookup_owner (w : World) (v : Video.t) : list OwnerView :=
  map (fun u => mkOwnerView (User._id u) (User.fullName u) (User.username u)
                            (User.avatar u) (User.verified u))
      (filter (fun u => User._id u =? Video.owner v) (users w)).

(** [$addFields: { owner: { $first: "$owner" } }] and the final [$project]. *)
Definition summarize (w : World) (v : Video.t) : VideoSummary :=
  mkVideoSummary (Video._id v) (Video.thumbnail v) (Video.title v)
                 (Video.duration v) (Video.views v) (Video.isPublished v)
                 (hd_error (lookup_owner w v)).

(** The [$lookup] from videos for one unwound history entry. *)
Definition lookup_videos (w : World) (id : ObjectId) : list VideoSummary :=
  map (summarize w)
      (sort_createdAt_desc
         (filter (fun v => Video.isPublished v)
                 (filter (fun v => Video._id v =? id) (videos w)))).

(** The whole pipeline; the result is the list of documents [$group]
    emits, each one its [watchHistory] array. *)
Definition watchHistory_pipeline (w : World) (user_id : ObjectId)
           (skip limit : Z) : list (list VideoSummary) :=
  let matched := filter (fun u => User._id u =? user_id) (users w) in
  let reversed := map (fun u => rev (User.watchHistory u)) matched in
  let unwound := concat reversed in
  let joined := map (lookup_videos w) unwound in
  let roots := concat joined in
  let page := firstn (Z.to_nat limit) (skipn (Z.to_nat skip) roots) in
  match page with
  | [] => []
  | _ => [page]
  end.

(** [user_id] is [req.user._id]; [query_page] and [query_limit] are
    [req.query.page] and [req.query.limit]. *)
Definition getWatchHistory (user_id : ObjectId)
           (query_page query_limit : option string) : M Response :=
  findUser <- User_findById user_id ;;
  throw_if (match findUser with None => true | Some _ => false end)
           (ApiError 404 "User does not exists") ;;
  let page := Js.num_or (Js.parseInt query_page) 1 in
  let limit := Js.num_or (Js.parseInt query_limit) 10 in
  if ((page <? 1)%Z || (limit <? 1)%Z)%bool
  then ret (mkResponse 400 []
              (mkApiResponse 400
                 (PText "Page and limit must be positive integers") None))
  else
    let skip := ((page - 1) * limit)%Z in
    user <- gets (fun w => watchHistory_pipeline w user_id skip limit) ;;
    ret (mkResponse 200 []
           (mkApiResponse 200
              (PVideos (match user with d :: _ => d | [] => [] end))
              (Some "Watch history fetched successfully"))).

Section PushHistory.

(** [isValidObjectId] of mongoose, and the ObjectId a valid string is
    cast to in a query filter. *)
Variable isValidObjectId : string -> bool.
Variable castObjectId : string -> ObjectId.

(** [Video.findOne({ _id: videoId, isPublished: true })] *)
Definition Video_findOne_published (videoId : string) : M (option Video.t) :=
  gets (fun w =>
    find (fun v => (Video._id v =? castObjectId videoId) && Video.isPublished v)%bool
         (videos w)).

Definition pushVideoToWatchHistory (user_id : ObjectId) (videoId : string)
  : M Response :=
  throw_if (negb (isValidObjectId videoId))
           (ApiError 400 "video id is not a valid object id") ;;
  isVideoAvl <- Video_findOne_published videoId ;;
  match isVideoAvl with
  | None => throw (ApiError 400 "video not found")
  | Some isVideoAvl =>
      user <- User_findByIdAndUpdate user_id
                (User.push_watchHistory (Video._id isVideoAvl)) true ;;
      match user with
      | None => throw (ApiError 400 "User not found")
      | Some user =>
          ret (mkResponse 200 []
                 (mkApiResponse 200
                    (PHistory (mkHistoryView (User._id user)
                                      (User.username user)
                                      (User.watchHistory user)))
                    (Some "Video added to watchHistory successfully")))
      end
  end.

End PushHistory.


(** ** Vocabulary of the specification *)

(** The classes of errors; an error carries the HTTP status code of its
    class.  Invalid input is a validation error. *)
Inductive ErrorClass :=
| ValidationError
| AuthError
| NotFoundError
| ServerError.

Definition InvalidInputError : ErrorClass := ValidationError.

Definition class_of_status (statusCode : Z) : option ErrorClass :=
  if (statusCode =? 400)%Z then Some ValidationError
  else if (statusCode =? 401)%Z then Some AuthError
  else if (statusCode =? 404)%Z then Some NotFoundError
  else if (statusCode =? 500)%Z then Some ServerError
  else None.

Definition class_of (e : Thrown) : option ErrorClass :=
  match e with
  | ApiError statusCode _ => class_of_status statusCode
  | _ => None
  end.

(** A video identifier is published when the media store holds a
    published video under it. *)
Definition published (w : World) (id : ObjectId) : bool :=
  existsb (fun v => (Video._id v =? id) && Video.isPublished v)%bool (videos w).

(** The watch-history page in the words of the specification: reverse
    the stored sequence, keep the published videos, skip
    [(page - 1) * limit] entries and return at most [limit]. *)
Definition history_page (w : World) (history : list ObjectId) (page limit : Z)
  : list ObjectId :=
  firstn (Z.to_nat limit)
         (skipn (Z.to_nat ((page - 1) * limit))
                (filter (published w) (rev history))).

(** Identifiers are unique in the users and videos collections. *)
Definition unique_ids (w : World) : Prop :=
  NoDup (map User._id (users w)) /\ NoDup (map Video._id (videos w)).

(** ** A small world to run the handlers on *)

Module Sample.

Definition alice : User.t :=
  User.mk "64b000000000000000000001" "alice" "alice@example.org" "Alice A"
          "hash-a" "https://cdn/alice-old.png" None true 1000
          ["65c00000000000000000000a"; "65c00000000000000000000b";
           "65c00000000000000000000c"]
          (Some "refresh-alice-2").

Definition bob : User.t :=
  User.mk "64b000000000000000000002" "bob" "bob@example.org" "Bob B"
          "hash-b" "https://cdn/bob.png" (Some "https://cdn/bob-cover.png")
          false 2000 [] None.

Definition videoA : Video.t :=
  Video.mk "65c00000000000000000000a" "64b000000000000000000002" true
           "First" "https://cdn/a.jpg" 60 5 3000.

Definition videoB : Video.t :=
  Video.mk "65c00000000000000000000b" "64b000000000000000000002" false
           "Second" "https://cdn/b.jpg" 90 7 3100.

Definition videoC : Video.t :=
  Video.mk "65c00000000000000000000c" "64b000000000000000000001" true
           "Third" "https://cdn/c.jpg" 30 9 3200.

Definition pending : Otp.t :=
  Otp.mk "carol@example.org" "482913" "register" 5000.

Definition world : World :=
  mkWorld [alice; bob] [videoA; videoB; videoC]
          [Subscription.mk "64b000000000000000000001" "64b000000000000000000002"]
          [pending] ["uploads/tmp-1"] [] [].

(** Collaborators: the OTP model compares codes, a refresh token is the
    user id after a fixed prefix, valid identifiers have 24 characters. *)
Definition isOtpCorrect (o : Otp.t) (code : string) : bool := Otp.otp o =? code.

Definition jwt_verify (token : string) : Thrown + TokenPayload :=
  if prefix "refresh-alice" token
  then inr (mkTokenPayload (Some "64b000000000000000000001"))
  else inl (LibraryError "invalid signature").

Definition generateAccessToken (u : User.t) : Thrown + string :=
  inr ("access-" ++ User.username u)%string.

Definition generateRefreshToken (u : User.t) : Thrown + string :=
  inr ("refresh-" ++ User.username u ++ "-3")%string.

Definition isValidObjectId (s : string) : bool := Nat.eqb (String.length s) 24.

Definition castObjectId (s : string) : ObjectId := Js.toLowerCase s.

Definition secure_url_of (localPath folder : string) : option string :=
  Some ("https://cdn/" ++ folder ++ "/" ++ localPath)%string.

End Sample.

(** ** Accounts and sessions: the remaining handlers of the controller *)

(** What these handlers send: [res.status(s).cookie(..).json(new
    ApiResponse(statusCode, data, message))]. *)
Record Reply (A : Type) := mkReply {
  rp_status : Z;
  rp_cookies : list (string * string);
  rp_statusCode : Z;
  rp_data : A;
  rp_message : string
}.
Arguments mkReply {A} _ _ _ _ _.
Arguments rp_status {A} _.
Arguments rp_cookies {A} _.
Arguments rp_statusCode {A} _.
Arguments rp_data {A} _.
Arguments rp_message {A} _.

(** [.select("-password -refreshToken")] *)
Record PublicUser := mkPublicUser {
  pu_id : ObjectId;
  pu_username : string;
  pu_email : string;
  pu_fullName : string;
  pu_avatar : string;
  pu_coverImage : option string;
  pu_verified : bool;
  pu_createdAt : Z;
  pu_watchHistory : list ObjectId
}.

Definition select_public (u : User.t) : PublicUser :=
  mkPublicUser (User._id u) (User.username u) (User.email u) (User.fullName u)
               (User.avatar u) (User.coverImage u) (User.verified u)
               (User.createdAt u) (User.watchHistory u).

Definition set_password (p : string) (u : User.t) : User.t :=
  User.mk (User._id u) (User.username u) (User.email u) (User.fullName u) p
          (User.avatar u) (User.coverImage u) (User.verified u)
          (User.createdAt u) (User.watchHistory u) (User.refreshToken u).

Definition set_account (fullName email : string) (u : User.t) : User.t :=
  User.mk (User._id u) (User.username u) email fullName (User.password u)
          (User.avatar u) (User.coverImage u) (User.verified u)
          (User.createdAt u) (User.watchHistory u) (User.refreshToken u).

(** One clause [{ field }] of a query filter.  Every stored user has a
    username and an email, so a clause whose value is undefined selects
    nobody. *)
Definition clause (value : option string) (stored : string) : bool :=
  match value with
  | Some v => stored =? v
  | None => false
  end.

(** [User.findOne({ $or: [{ username }, { email }] })] *)
Definition User_findOne_or (username email : option string)
  : M (option User.t) :=
  gets (fun w =>
    find (fun u => clause username (User.username u)
                   || clause email (User.email u))%bool
         (users w)).

(** [field?.trim() === ""] *)
Definition blank (field : option string) : bool :=
  match field with
  | Some s => Js.trim s =? ""
  | None => false
  end.

Section Accounts.

(** [user.isPasswordCorrect(password)], a method of the user model. *)
Variable isPasswordCorrect : User.t -> option string -> Thrown + bool.
Variable generateAccessToken : User.t -> Thrown + string.
Variable generateRefreshToken : User.t -> Thrown + string.
(** [User.create({ fullName, email, password, username })], left to the
    user model: validation, hashing and the new document are its own. *)
Variable User_create :
  option string -> option string -> option string -> string -> M User.t.
(** What [user.save()] stores for a password assigned in clear. *)
Variable stored_password : string -> string.

(** [verified] is [req.verifyOtp === true]. *)
Definition registerUser (fullName email password username otp : option string)
           (verified : bool) : M (Reply PublicUser) :=
  throw_if (existsb blank [fullName; email; password; username; otp])
           (ApiError 400 "All fields are required") ;;
  throw_if (negb verified) (ApiError 400 "Invalid otp") ;;
  existedUser <- User_findOne_or username email ;;
  throw_if (match existedUser with Some _ => true | None => false end)
           (ApiError 409 "User with email or username already exists") ;;
  match username with
  | None => throw (TypeError "Cannot read properties of undefined")
  | Some username =>
      user <- User_create fullName email password (Js.toLowerCase username) ;;
      createdUser <- User_findById (User._id user) ;;
      match createdUser with
      | None =>
          throw (ApiError 500 "Something went wrong while registering the user")
      | Some createdUser =>
          ret (mkReply 201 [] 200 (select_public createdUser)
                       "User registered Successfully")
      end
  end.

Definition loginUser (username email password : option string)
  : M (Reply (option PublicUser)) :=
  throw_if (negb (Js.truthy username || Js.truthy email))
           (ApiError 400 "username or email is required") ;;
  user <- User_findOne_or username email ;;
  match user with
  | None => throw (ApiError 404 "Invalid user credentials")
  | Some user =>
      isPasswordValid <- lift (isPasswordCorrect user password) ;;
      throw_if (negb isPasswordValid) (ApiError 404 "Invalid user credentials") ;;
      tokens <- generateAccessAndRefreshTokens generateAccessToken
                  generateRefreshToken (User._id user) ;;
      let (accessToken, refreshToken) := tokens in
      loggedInUser <- User_findById (User._id user) ;;
      ret (mkReply 200
             [("accessToken", accessToken); ("refreshToken", refreshToken)]
             200 (option_map select_public loggedInUser)
             "user logged In Successfully")
  end.

(** [res.clearCookie(name)] sends the cookie with an empty value. *)
Definition logoutUser (user_id : ObjectId) : M (Reply unit) :=
  User_findByIdAndUpdate user_id (User.set_refreshToken None) true ;;
  ret (mkReply 200 [("accessToken", ""); ("refreshToken", "")] 200 tt
               "User logged Out").

Definition changeCurrentPassword (user_id : ObjectId)
           (oldPassword newPassword : option string) : M (Reply unit) :=
  throw_if (negb (Js.truthy oldPassword && Js.truthy newPassword))
           (ApiError 400 "old and new both passwords are required") ;;
  user <- User_findById user_id ;;
  match user with
  | None => throw (TypeError "Cannot read properties of null")
  | Some user =>
      isOldCorrect <- lift (isPasswordCorrect user oldPassword) ;;
      isNewPasswordSame <- lift (isPasswordCorrect user newPassword) ;;
      throw_if (negb isOldCorrect) (ApiError 400 "Invalid old password") ;;
      throw_if isNewPasswordSame
               (ApiError 400 "Old password and New password are same") ;;
      let newPassword := match newPassword with Some p => p | None => "" end in
      modify (fun w =>
        with_users (update_first (User._id user)
                      (set_password (stored_password newPassword))
                      (users w)) w) ;;
      ret (mkReply 200 [] 200 tt "Password changed successfully")
  end.

End Accounts.

(** Whether [email] is the email of a stored user other than [id]. *)
Definition email_of_another (id : ObjectId) (email : string) (w : World) : bool :=
  existsb (fun u => negb (User._id u =? id) && (User.email u =? email))%bool
          (users w).

(** Modelled from the spec: the user schema is not among the sources; the
    uniqueness of emails is enforced at the store.  An update that would
    give an existing user the email of another one is refused by the store
    with a duplicate-key error and writes nothing; any other update is
    [User.findByIdAndUpdate(id, { $set: { fullName, email } }, { new: true })]. *)
Definition User_updateAccount (id : ObjectId) (fullName email : string)
  : M (option User.t) :=
  old <- User_findById id ;;
  taken <- gets (email_of_another id email) ;;
  match old with
  | Some _ =>
      throw_if taken (LibraryError "E11000 duplicate key error") ;;
      User_findByIdAndUpdate id (set_account fullName email) true
  | None => User_findByIdAndUpdate id (set_account fullName email) true
  end.

Definition updateAccountDetails (user_id : ObjectId)
           (fullName email : option string) : M (Reply (option UserView)) :=
  throw_if (negb (Js.truthy fullName) || negb (Js.truthy email))
           (ApiError 400 "All fields are required") ;;
  let fullName := match fullName with Some n => n | None => "" end in
  let email := match email with Some e => e | None => "" end in
  user <- User_updateAccount user_id fullName email ;;
  ret (mkReply 200 [] 200 (option_map select_without_password user)
               "Account details updated successfully").

(** [username] is [req.params.username]. *)
Definition checkIfUsernameIsAvl (username : string) : M (Reply bool) :=
  user <- gets (fun w => find (fun u => User.username u =? username) (users w)) ;;
  match user with
  | Some _ =>
      ret (mkReply 200 [] 200 false ("@" ++ username ++ " is unavailable")%string)
  | None =>
      ret (mkReply 200 [] 200 true ("@" ++ username ++ " is available")%string)
  end.

(** [email] is [req.params.email]. *)
Definition checkIfEmailIsAvl (email : string) : M (Reply bool) :=
  user <- gets (fun w => find (fun u => User.email u =? email) (users w)) ;;
  match user with
  | Some _ => ret (mkReply 200 [] 200 false (email ++ " is already in use")%string)
  | None => ret (mkReply 200 [] 200 true (email ++ " is available")%string)
  end.

(** Text on which the string primitives of [Js] are the JavaScript ones:
    every byte is below 128.  An absent field has no text. *)
Definition is_ascii (s : string) : bool :=
  forallb (fun c => Nat.ltb (nat_of_ascii c) 128) (list_ascii_of_string s).

Definition ascii_field (field : option string) : bool :=
  match field with
  | Some s => is_ascii s
  | None => true
  end.

(** Collaborators for running these handlers on the sample world. *)
Module Fixture.

Definition isPasswordCorrect (u : User.t) (password : option string)
  : Thrown + bool :=
  match password with
  | Some p => inr (User.password u =? ("hash-" ++ p))%string
  | None => inl (LibraryError "data and hash arguments required")
  end.

Definition stored_password (p : string) : string := ("hash-" ++ p)%string.

Definition User_create (fullName email password : option string)
           (username : string) : M User.t :=
  let text := fun o : option string => match o with Some s => s | None => "" end in
  let user := User.mk ("64b0000000000000000000" ++ username)%string username
                      (text email) (text fullName)
                      (stored_password (text password)) "" None false 9000 []
                      None in
  modify (fun w => with_users (users w ++ [user]) w) ;;
  ret user.

(** The verifier of the tokens [Sample.generateRefreshToken] issues. *)
Definition jwt_verify (token : string) : Thrown + TokenPayload :=
  if prefix "refresh-alice" token
  then inr (mkTokenPayload (Some "64b000000000000000000001"))
  else if prefix "refresh-bob" token
  then inr (mkTokenPayload (Some "64b000000000000000000002"))
  else inl (LibraryError "invalid signature").

End Fixture.

(** * Properties *)

(** One step of a handler: expose the plumbing and compute. *)
Ltac run :=
  unfold bind, throw_if, gets, modify, throw, ret, lift, try_catch;
  cbn beta iota zeta delta [negb orb andb fst snd].

(** ** Collections keyed by a unique string *)

Section Keyed.

Context {A : Type} (key : A -> string).

Lemma find_key_none (k : string) (l : list A) :
  ~ In k (map key l) -> find (fun x => key x =? k) l = None.
Proof.
  induction l as [|a l IH]; simpl; intros Hn; [reflexivity|].
  destruct (String.eqb_spec (key a) k) as [E|E].
  - exfalso. apply Hn. now left.
  - apply IH. intros Hin. apply Hn. now right.
Qed.

Lemma filter_key_none (k : string) (l : list A) :
  ~ In k (map key l) -> filter (fun x => key x =? k) l = [].
Proof.
  induction l as [|a l IH]; simpl; intros Hn; [reflexivity|].
  destruct (String.eqb_spec (key a) k) as [E|E].
  - exfalso. apply Hn. now left.
  - apply IH. intros Hin. apply Hn. now right.
Qed.

Lemma filter_key_unique (k : string) (l : list A) :
  NoDup (map key l) ->
  filter (fun x => key x =? k) l =
  match find (fun x => key x =? k) l with
  | Some x => [x]
  | None => []
  end.
Proof.
  induction l as [|a l IH]; simpl; intros Hnd; [reflexivity|].
  inversion Hnd as [|? ? Hnotin Hnd']; subst.
  destruct (String.eqb_spec (key a) k) as [E|E].
  - subst k. now rewrite filter_key_none.
  - now apply IH.
Qed.

Lemma find_key_in (l : list A) (a : A) :
  NoDup (map key l) -> In a l -> find (fun x => key x =? key a) l = Some a.
Proof.
  induction l as [|b l IH]; simpl; intros Hnd Hin; [contradiction|].
  inversion Hnd as [|? ? Hnotin Hnd']; subst.
  destruct Hin as [->|Hin].
  - now rewrite String.eqb_refl.
  - destruct (String.eqb_spec (key b) (key a)) as [E|E].
    + exfalso. apply Hnotin. rewrite E. now apply in_map.
    + now apply IH.
Qed.

End Keyed.

(** ** Running handlers *)

Lemma truthy_some (s : string) : s <> "" -> Js.truthy (Some s) = true.
Proof.
  intros Hs. simpl. now destruct (String.eqb_spec s "").
Qed.

(** ** OTP verification *)

Lemma find_filter_nil {A} (f : A -> bool) (l : list A) :
  filter f l = [] -> find f l = None.
Proof.
  induction l as [|a l IH]; simpl; [reflexivity|].
  destruct (f a); [discriminate|exact IH].
Qed.

Lemma delete_first_last (email : string) (l : list Otp.t) :
  length (filter (fun o => Otp.email o =? email) l) <= 1 ->
  find (fun o => Otp.email o =? email) (delete_first email l) = None.
Proof.
  induction l as [|o l IH]; simpl; intros Hone; [reflexivity|].
  destruct (Otp.email o =? email) eqn:E.
  - apply find_filter_nil. simpl in Hone.
    destruct (filter _ l); [reflexivity|simpl in Hone; lia].
  - simpl. rewrite E. now apply IH.
Qed.

(** What a run of the middleware that reaches [next()] has done. *)
Lemma verifyOtp_success isOtpCorrect email otp url now w v w' :
  verifyOtp isOtpCorrect email otp url now w = (Normal v, w') ->
  exists e c r,
    email = Some e /\ otp = Some c /\ e <> "" /\ c <> "" /\
    find (fun o => Otp.email o =? e) (otps w) = Some r /\
    (Otp.expires r <? now)%Z = false /\
    route_context url = Some (Otp.context r) /\
    isOtpCorrect r c = true /\
    v = true /\
    w' = with_otps (delete_first e (otps w)) w.
Proof.
  unfold verifyOtp, bind, throw_if, Otp_findOne, Otp_deleteOne, gets, modify,
    throw, ret.
  destruct email as [e|]; [|discriminate].
  destruct otp as [c|]; simpl; [|destruct (e =? ""); discriminate].
  destruct (String.eqb_spec e "") as [|He]; [discriminate|].
  destruct (String.eqb_spec c "") as [|Hc]; simpl; [discriminate|].
  destruct (find _ (otps w)) as [r|] eqn:Hfind; [|discriminate].
  destruct (Otp.expires r <? now)%Z eqn:Hexp; simpl; [discriminate|].
  unfold differs.
  destruct (route_context url) as [tag|] eqn:Hctx; simpl; [|discriminate].
  destruct (String.eqb_spec tag (Otp.context r)) as [->|]; simpl; [|discriminate].
  destruct (isOtpCorrect r c) eqn:Hok; simpl; [|discriminate].
  intros H. injection H as <- <-.
  apply find_some in Hfind as Hr. destruct Hr as [_ Hr].
  apply String.eqb_eq in Hr. rewrite Hr.
  exists e, c, r. repeat split; auto.
Qed.

(** C5: OTP verification is single-use.  When the middleware lets a request
    through, it has deleted the OTP record of that email; the store holding
    no second record for the email, a second attempt with the same email and
    code, on any route and at any time, fails with the 404 error "Otp not
    found", a NotFoundError, and changes nothing. *)
Theorem verifyOtp_single_use isOtpCorrect email code url now w v w' :
  length (filter (fun o => Otp.email o =? email) (otps w)) <= 1 ->
  verifyOtp isOtpCorrect (Some email) (Some code) url now w = (Normal v, w') ->
  find (fun o => Otp.email o =? email) (otps w') = None /\
  forall url' now',
    verifyOtp isOtpCorrect (Some email) (Some code) url' now' w'
      = (Throw (ApiError 404 "Otp not found"), w') /\
    class_of (ApiError 404 "Otp not found") = Some NotFoundError.
Proof.
  intros Hone Hrun.
  destruct (verifyOtp_success _ _ _ _ _ _ _ _ Hrun)
    as (e & c & r & [= <-] & [= <-] & He & Hc & Hfind & _ & _ & _ & _ & ->).
  assert (Hgone : find (fun o => Otp.email o =? email)
                       (otps (with_otps (delete_first email (otps w)) w)) = None)
    by (simpl; now apply delete_first_last).
  split; [exact Hgone|].
  intros url' now'. split; [|reflexivity].
  unfold verifyOtp. rewrite !truthy_some by assumption.
  run. unfold Otp_findOne. run. now rewrite Hgone.
Qed.

(** C6, as stated, fails: on the registration OTP of the sample world, a
    request on the route [/login] with the right code is refused with status
    404, which is the status of a NotFoundError and not of an
    InvalidInputError. *)
Lemma verifyOtp_wrong_route_is_404 :
  verifyOtp Sample.isOtpCorrect (Some "carol@example.org") (Some "482913")
            "/login" 4000 Sample.world
    = (Throw (ApiError 404 "Invalid otp"), Sample.world) /\
  Sample.isOtpCorrect Sample.pending "482913" = true /\
  class_of (ApiError 404 "Invalid otp") <> Some InvalidInputError.
Proof.
  repeat split. discriminate.
Qed.

(** C6 (amended): for a pending, unexpired OTP record, when the context tag
    of the calling route differs from the context stored in the record, the
    middleware fails with the 404 error "Invalid otp" whatever the submitted code
    is, and the world, the OTP record included, is unchanged. *)
Theorem verifyOtp_context_mismatch isOtpCorrect email code url now w r :
  email <> "" -> code <> "" ->
  find (fun o => Otp.email o =? email) (otps w) = Some r ->
  (now <= Otp.expires r)%Z ->
  route_context url <> Some (Otp.context r) ->
  verifyOtp isOtpCorrect (Some email) (Some code) url now w
    = (Throw (ApiError 404 "Invalid otp"), w) /\
  In r (otps w).
Proof.
  intros He Hc Hfind Hexp Hctx.
  split; [|now apply find_some in Hfind].
  unfold verifyOtp. rewrite !truthy_some by assumption.
  run. unfold Otp_findOne. run. rewrite Hfind.
  replace (Otp.expires r <? now)%Z with false by (symmetry; apply Z.ltb_ge; lia).
  run.
  assert (Hd : differs (route_context url) (Otp.context r) = true).
  { unfold differs. destruct (route_context url) as [tag|]; [|reflexivity].
    destruct (String.eqb_spec tag (Otp.context r)) as [->|]; [|reflexivity].
    now contradiction Hctx. }
  now rewrite Hd.
Qed.

Lemma verifyOtp_context_mismatch_witness :
  verifyOtp Sample.isOtpCorrect (Some "carol@example.org") (Some "482913")
            "/forgot-password" 4000 Sample.world
    = (Throw (ApiError 404 "Invalid otp"), Sample.world) /\
  In Sample.pending (otps Sample.world).
Proof.
  apply (verifyOtp_context_mismatch Sample.isOtpCorrect "carol@example.org"
           "482913" "/forgot-password" 4000 Sample.world Sample.pending).
  - discriminate.
  - discriminate.
  - reflexivity.
  - simpl. lia.
  - discriminate.
Defined.

Lemma verifyOtp_single_use_witness :
  let w' := with_otps [] Sample.world in
  find (fun o => Otp.email o =? "carol@example.org") (otps w') = None /\
  forall url' now',
    verifyOtp Sample.isOtpCorrect (Some "carol@example.org") (Some "482913")
              url' now' w'
      = (Throw (ApiError 404 "Otp not found"), w') /\
    class_of (ApiError 404 "Otp not found") = Some NotFoundError.
Proof.
  apply (verifyOtp_single_use Sample.isOtpCorrect "carol@example.org"
           "482913" "/register" 4000 Sample.world true).
  - simpl. lia.
  - reflexivity.
Defined.

(** ** Refresh-token exchange *)

(** C7: when the presented refresh token is correctly signed and unexpired
    and names an existing user, but is not the token stored on that user's
    record, the exchange fails with the 401 error "Refresh token is expired
    or used", an AuthError; no token is generated and the world, the stored
    token included, is unchanged. *)
Theorem refreshAccessToken_rejects_stale_token
        jwt_verify generateAccessToken generateRefreshToken
        cookie body_token token payload id user w :
  Js.or_else cookie body_token = Some token ->
  token <> "" ->
  jwt_verify token = inr payload ->
  tp_id payload = Some id ->
  find (fun u => User._id u =? id) (users w) = Some user ->
  User.refreshToken user <> Some token ->
  refreshAccessToken jwt_verify generateAccessToken generateRefreshToken
                     cookie body_token w
    = (Throw (ApiError 401 "Refresh token is expired or used"), w) /\
  class_of (ApiError 401 "Refresh token is expired or used") = Some AuthError.
Proof.
  intros Hin Htok Hjwt Hid Hfind Hneq.
  split; [|reflexivity].
  unfold refreshAccessToken. rewrite Hin, (truthy_some _ Htok).
  run. rewrite Hjwt. run. rewrite Hid. unfold User_findById. run. rewrite Hfind.
  assert (Hs : same_token token (User.refreshToken user) = false).
  { unfold same_token. destruct (User.refreshToken user) as [s|]; [|reflexivity].
    destruct (String.eqb_spec token s) as [->|]; [|reflexivity].
    now contradiction Hneq. }
  rewrite Hs. reflexivity.
Qed.

Lemma refreshAccessToken_rejects_stale_token_witness :
  refreshAccessToken Sample.jwt_verify Sample.generateAccessToken
                     Sample.generateRefreshToken
                     (Some "refresh-alice-1") None Sample.world
    = (Throw (ApiError 401 "Refresh token is expired or used"), Sample.world) /\
  class_of (ApiError 401 "Refresh token is expired or used") = Some AuthError.
Proof.
  apply (refreshAccessToken_rejects_stale_token
           Sample.jwt_verify Sample.generateAccessToken
           Sample.generateRefreshToken (Some "refresh-alice-1") None
           "refresh-alice-1"
           (mkTokenPayload (Some "64b000000000000000000001"))
           "64b000000000000000000001" Sample.alice Sample.world).
  - reflexivity.
  - discriminate.
  - reflexivity.
  - reflexivity.
  - reflexivity.
  - discriminate.
Defined.

(** ** Channel profile *)

Lemma in_array_subscribers (viewer : option ObjectId) (l : list Subscription.t) :
  in_array (viewer_id viewer)
           (map (fun s => BObjectId (Subscription.subscriber s)) l) = true <->
  exists v, viewer = Some v /\
            exists s, In s l /\ Subscription.subscriber s = v.
Proof.
  unfold in_array. rewrite existsb_exists. split.
  - intros (b & Hb & Heq). apply in_map_iff in Hb as (s & <- & Hs).
    destruct viewer as [v|]; simpl in Heq; [|discriminate].
    apply String.eqb_eq in Heq. exists v. split; [reflexivity|]. now exists s.
  - intros (v & -> & s & Hs & <-).
    exists (BObjectId (Subscription.subscriber s)). split.
    + apply in_map_iff. now exists s.
    + simpl. apply String.eqb_refl.
Qed.

(** C8: for a non-blank ASCII username, the channel profile is computed from the
    first user whose stored username is the lower-cased request username (so
    two requests that differ only in letter case get the same answer).  It
    carries that user's public fields, the number of subscription edges whose
    channel is the user, the number of edges whose subscriber is the user,
    and [isSubscribed], which is true exactly when a viewer is present and
    an edge from that viewer to the channel exists, hence false without a
    viewer.  With no such user the handler fails with the 404 error "channel
    does not exists", a NotFoundError. *)
Theorem getUserChannelProfile_spec (username : string)
        (viewer : option ObjectId) (w : World) :
  is_ascii username = true ->
  Js.trim username <> "" ->
  (forall other,
     is_ascii other = true ->
     Js.trim other <> "" ->
     Js.toLowerCase other = Js.toLowerCase username ->
     getUserChannelProfile (Some other) viewer w
       = getUserChannelProfile (Some username) viewer w) /\
  match find (fun u => User.username u =? Js.toLowerCase username) (users w) with
  | None =>
      getUserChannelProfile (Some username) viewer w
        = (Throw (ApiError 404 "channel does not exists"), w) /\
      class_of (ApiError 404 "channel does not exists") = Some NotFoundError
  | Some u =>
      exists p,
        getUserChannelProfile (Some username) viewer w
          = (Normal (mkResponse 200 []
                       (mkApiResponse 200 (PChannel p)
                          (Some "User channel fetched successfully"))), w) /\
        (cp_id p, cp_fullName p, cp_username p, cp_avatar p, cp_coverImage p,
         cp_email p, cp_verified p, cp_createdAt p)
          = (User._id u, User.fullName u, User.username u, User.avatar u,
             User.coverImage u, User.email u, User.verified u,
             User.createdAt u) /\
        cp_subscribersCount p
          = length (filter (fun s => Subscription.channel s =? User._id u)
                           (subscriptions w)) /\
        cp_channelsSubscibedToCount p
          = length (filter (fun s => Subscription.subscriber s =? User._id u)
                           (subscriptions w)) /\
        (cp_isSubscribed p = true <->
         exists v, viewer = Some v /\
                   In (Subscription.mk v (User._id u)) (subscriptions w)) /\
        (viewer = None -> cp_isSubscribed p = false)
  end.
Proof.
  intros _ Hname.
  assert (Hrun : forall n, Js.trim n <> "" ->
            getUserChannelProfile (Some n) viewer w =
            match channel_pipeline w n viewer with
            | [] => (Throw (ApiError 404 "channel does not exists"), w)
            | c :: _ =>
                (Normal (mkResponse 200 []
                           (mkApiResponse 200 (PChannel c)
                              (Some "User channel fetched successfully"))), w)
            end).
  { intros n Hn. unfold getUserChannelProfile.
    cbn [option_map]. rewrite (truthy_some _ Hn). run.
    now destruct (channel_pipeline w n viewer). }
  split.
  - intros other _ Hother Hlow. rewrite (Hrun _ Hother), (Hrun _ Hname).
    unfold channel_pipeline. now rewrite Hlow.
  - rewrite (Hrun _ Hname). unfold channel_pipeline.
    induction (users w) as [|u us IH]; simpl; [now split|].
    destruct (User.username u =? Js.toLowerCase username); [|exact IH].
    simpl. eexists. split; [reflexivity|].
    unfold channel_document; simpl.
    repeat split; try reflexivity.
    + intros H.
      destruct (in_array _ _) eqn:Hin; [|discriminate].
      apply in_array_subscribers in Hin as (v & -> & s & Hs & <-).
      apply filter_In in Hs as [Hs Hc]. apply String.eqb_eq in Hc.
      exists (Subscription.subscriber s). split; [reflexivity|].
      rewrite <- Hc. now destruct s.
    + intros (v & -> & Hin).
      assert (Hyes : in_array (viewer_id (Some v))
                (map (fun s => BObjectId (Subscription.subscriber s))
                   (filter (fun s => Subscription.channel s =? User._id u)
                      (subscriptions w))) = true).
      { apply in_array_subscribers. exists v. split; [reflexivity|].
        exists (Subscription.mk v (User._id u)). split; [|reflexivity].
        apply filter_In. split; [exact Hin|]. simpl. apply String.eqb_refl. }
      now rewrite Hyes.
    + intros ->.
      destruct (in_array _ _) eqn:Hin; [|reflexivity].
      apply in_array_subscribers in Hin as (v & Hv & _). discriminate.
Qed.

Lemma getUserChannelProfile_spec_witness :
  exists p,
    getUserChannelProfile (Some "BoB") (Some "64b000000000000000000001")
                          Sample.world
      = (Normal (mkResponse 200 []
                   (mkApiResponse 200 (PChannel p)
                      (Some "User channel fetched successfully"))),
         Sample.world) /\
    cp_username p = "bob" /\
    cp_subscribersCount p = 1 /\
    cp_channelsSubscibedToCount p = 0 /\
    cp_isSubscribed p = true.
Proof.
  destruct (getUserChannelProfile_spec "BoB" (Some "64b000000000000000000001")
              Sample.world) as [_ H]; [reflexivity|discriminate|].
  simpl in H. destruct H as (p & Hrun & Hfields & Hsubs & Hto & Hflag & _).
  exists p. split; [exact Hrun|].
  injection Hfields as _ _ Hname _ _ _ _ _.
  repeat split; try assumption.
  apply Hflag. exists "64b000000000000000000001".
  split; [reflexivity|]. now left.
Defined.

(** ** Profile images *)

Lemma unlinkSync_present (path : string) (w : World) :
  In path (disk w) ->
  unlinkSync path w
    = (Normal tt, with_disk (filter (fun p => negb (p =? path)) (disk w)) w).
Proof.
  intros Hin. unfold unlinkSync.
  replace (existsb (String.eqb path) (disk w)) with true; [reflexivity|].
  symmetry. apply existsb_exists. exists path. split; [exact Hin|].
  apply String.eqb_refl.
Qed.

Lemma filter_out_absent (path : string) (l : list string) :
  ~ In path (filter (fun p => negb (p =? path)) l).
Proof.
  intros Hin. apply filter_In in Hin as [_ Hne].
  now rewrite String.eqb_refl in Hne.
Qed.

(** What [updateUserAvatar] does with a file whose mimetype contains
    "image": upload, and then, with an answer from the CDN and the user in
    the store, deletion of the old avatar and the failure on [ture]. *)
Lemma updateUserAvatar_image secure_url_of user_id file w :
  File.path file <> "" ->
  Js.includes (File.mimetype file) "image" = true ->
  let w0 := with_cdn_uploads
              ((File.path file, "videotube/users") :: cdn_uploads w) w in
  let w1 := with_disk
              (filter (fun p => negb (p =? File.path file)) (disk w0)) w0 in
  updateUserAvatar secure_url_of user_id (Some file) w =
  if Js.truthy (secure_url_of (File.path file) "videotube/users")
  then match find (fun u => User._id u =? user_id) (users w) with
       | Some oldUser =>
           (Throw (ReferenceError "ture"),
            with_cdn_deleted (User.avatar oldUser :: cdn_deleted w1) w1)
       | None => (Throw (TypeError "Cannot read properties of null"), w1)
       end
  else (Throw (ApiError 500 "Error while uploading avatar"), w1).
Proof.
  intros Hpath Himg w0 w1. unfold updateUserAvatar.
  cbn [option_map]. rewrite (truthy_some _ Hpath), Himg.
  unfold cloudinary_upload, cloudinary_delete, User_findById, ture. run.
  fold w0. fold w1.
  destruct (Js.truthy (secure_url_of (File.path file) "videotube/users"));
    run; [|reflexivity].
  replace (users w1) with (users w) by reflexivity.
  now destruct (find _ (users w)).
Qed.

(** C9 fails on the code: an avatar update whose file is an image, whose
    upload succeeds and whose user exists never returns a document.  The
    handler stops on the unbound identifier [ture] before the store is
    updated, so the stored avatar is still the old one, while the old image
    has already been deleted from the CDN. *)
Theorem updateUserAvatar_never_returns secure_url_of user_id file url oldUser w :
  File.path file <> "" ->
  Js.includes (File.mimetype file) "image" = true ->
  secure_url_of (File.path file) "videotube/users" = Some url ->
  url <> "" ->
  find (fun u => User._id u =? user_id) (users w) = Some oldUser ->
  exists w',
    updateUserAvatar secure_url_of user_id (Some file) w
      = (Throw (ReferenceError "ture"), w') /\
    users w' = users w /\
    In (User.avatar oldUser) (cdn_deleted w').
Proof.
  intros Hpath Himg Hup Hurl Hfind.
  rewrite (updateUserAvatar_image _ _ _ _ Hpath Himg), Hup,
    (truthy_some _ Hurl), Hfind.
  eexists. split; [reflexivity|]. split; [reflexivity|]. now left.
Qed.

Lemma updateUserAvatar_never_returns_witness :
  exists w',
    updateUserAvatar Sample.secure_url_of "64b000000000000000000001"
                     (Some (File.mk "uploads/tmp-1" "image/png")) Sample.world
      = (Throw (ReferenceError "ture"), w') /\
    users w' = users Sample.world /\
    In (User.avatar Sample.alice) (cdn_deleted w').
Proof.
  apply (updateUserAvatar_never_returns Sample.secure_url_of
           "64b000000000000000000001" (File.mk "uploads/tmp-1" "image/png")
           "https://cdn/videotube/users/uploads/tmp-1" Sample.alice Sample.world).
  - discriminate.
  - reflexivity.
  - reflexivity.
  - discriminate.
  - reflexivity.
Defined.

(** C10: a cover file whose mimetype contains "gif", or does not contain
    "image", is refused with the 400 error "Only images are allowed to
    upload", a client fault, after the temporary file has been removed from
    the disk and before anything is sent to the CDN.  The avatar handler, on
    any file whose mimetype contains "image", a GIF included, does not
    refuse: it sends the file to the CDN. *)
Theorem updateUserCoverImage_rejects_gif secure_url_of user_id file w :
  File.path file <> "" ->
  In (File.path file) (disk w) ->
  (Js.includes (File.mimetype file) "gif" = true \/
   Js.includes (File.mimetype file) "image" = false ->
   exists w',
     updateUserCoverImage secure_url_of user_id (Some file) w
       = (Throw (ApiError 400 "Only images are allowed to upload"), w') /\
     class_of (ApiError 400 "Only images are allowed to upload")
       = Some ValidationError /\
     ~ In (File.path file) (disk w') /\
     cdn_uploads w' = cdn_uploads w /\ users w' = users w) /\
  (Js.includes (File.mimetype file) "image" = true ->
   exists r w',
     updateUserAvatar secure_url_of user_id (Some file) w = (r, w') /\
     r <> Throw (ApiError 400 "Only images are allowed to upload") /\
     In (File.path file, "videotube/users") (cdn_uploads w')).
Proof.
  intros Hpath Hdisk. split.
  - intros Hmime.
    assert (Hbad : (Js.includes (File.mimetype file) "gif"
                    || negb (Js.includes (File.mimetype file) "image"))%bool
                   = true).
    { destruct Hmime as [-> | ->]; [reflexivity|apply orb_true_r]. }
    unfold updateUserCoverImage.
    cbn [option_map]. rewrite (truthy_some _ Hpath), Hbad.
    run. rewrite (unlinkSync_present _ _ Hdisk).
    eexists. split; [reflexivity|]. split; [reflexivity|].
    split; [apply filter_out_absent|]. now split.
  - intros Himg.
    rewrite (updateUserAvatar_image _ _ _ _ Hpath Himg).
    destruct (Js.truthy _); [destruct (find _ _)|];
      do 2 eexists; (split; [reflexivity|]);
      (split; [discriminate|now left]).
Qed.

Lemma updateUserCoverImage_rejects_gif_witness :
  let gif := File.mk "uploads/tmp-1" "image/gif" in
  (exists w',
     updateUserCoverImage Sample.secure_url_of "64b000000000000000000002"
                          (Some gif) Sample.world
       = (Throw (ApiError 400 "Only images are allowed to upload"), w') /\
     class_of (ApiError 400 "Only images are allowed to upload")
       = Some ValidationError /\
     ~ In "uploads/tmp-1" (disk w') /\
     cdn_uploads w' = [] /\ users w' = users Sample.world) /\
  (exists r w',
     updateUserAvatar Sample.secure_url_of "64b000000000000000000002"
                      (Some gif) Sample.world = (r, w') /\
     r <> Throw (ApiError 400 "Only images are allowed to upload") /\
     In ("uploads/tmp-1", "videotube/users") (cdn_uploads w')).
Proof.
  intros gif.
  destruct (updateUserCoverImage_rejects_gif Sample.secure_url_of
              "64b000000000000000000002" gif Sample.world) as [Hcover Havatar].
  - discriminate.
  - now left.
  - split; [apply Hcover; now left|apply Havatar; reflexivity].
Defined.

(** ** Watch history *)

Lemma existsb_filter {A} (f g : A -> bool) (l : list A) :
  existsb (fun x => f x && g x)%bool l = existsb g (filter f l).
Proof.
  induction l as [|a l IH]; simpl; [reflexivity|].
  rewrite IH. now destruct (f a); simpl.
Qed.

Lemma filter_length_le {A} (f : A -> bool) (l : list A) :
  length (filter f l) <= length l.
Proof.
  induction l as [|a l IH]; simpl; [lia|].
  destruct (f a); simpl; lia.
Qed.

Lemma Forall_page {A} (P : A -> Prop) (n m : nat) (l : list A) :
  Forall P l -> Forall P (firstn n (skipn m l)).
Proof.
  intros H.
  rewrite <- (firstn_skipn m l) in H. apply Forall_app in H as [_ H].
  rewrite <- (firstn_skipn n (skipn m l)) in H. now apply Forall_app in H.
Qed.

(** With unique video identifiers the join of one history entry finds at
    most one video. *)
Lemma lookup_videos_unique (w : World) (id : ObjectId) :
  NoDup (map Video._id (videos w)) ->
  lookup_videos w id =
  match find (fun v => Video._id v =? id) (videos w) with
  | Some v => if Video.isPublished v then [summarize w v] else []
  | None => []
  end.
Proof.
  intros Hnd. unfold lookup_videos.
  rewrite (filter_key_unique Video._id id _ Hnd).
  destruct (find _ (videos w)) as [v|]; [|reflexivity].
  simpl. now destruct (Video.isPublished v).
Qed.

Lemma published_unique (w : World) (id : ObjectId) :
  NoDup (map Video._id (videos w)) ->
  published w id =
  match find (fun v => Video._id v =? id) (videos w) with
  | Some v => Video.isPublished v
  | None => false
  end.
Proof.
  intros Hnd. unfold published.
  rewrite existsb_filter, (filter_key_unique Video._id id _ Hnd).
  destruct (find _ (videos w)) as [v|]; [|reflexivity].
  simpl. apply orb_false_r.
Qed.

Lemma joined_ids (w : World) (l : list ObjectId) :
  NoDup (map Video._id (videos w)) ->
  map vs_id (concat (map (lookup_videos w) l)) = filter (published w) l.
Proof.
  intros Hnd. induction l as [|id l IH]; simpl; [reflexivity|].
  rewrite map_app, IH, (lookup_videos_unique _ _ Hnd), (published_unique _ _ Hnd).
  destruct (find _ (videos w)) as [v|] eqn:Hfind; [|reflexivity].
  apply find_some in Hfind as [_ Hid]. apply String.eqb_eq in Hid.
  destruct (Video.isPublished v); simpl; [now rewrite Hid|reflexivity].
Qed.

Lemma joined_published (w : World) (l : list ObjectId) :
  NoDup (map Video._id (videos w)) ->
  Forall (fun s => exists v, In v (videos w) /\ Video.isPublished v = true /\
                             s = summarize w v)
         (concat (map (lookup_videos w) l)).
Proof.
  intros Hnd. apply Forall_concat, Forall_map, Forall_forall.
  intros id _. rewrite (lookup_videos_unique _ _ Hnd).
  destruct (find _ (videos w)) as [v|] eqn:Hfind; [|constructor].
  apply find_some in Hfind as [Hin _].
  destruct (Video.isPublished v) eqn:Hpub; constructor; [|constructor].
  now exists v.
Qed.

(** A request with an existing user and effective page and limit of at
    least one is answered with the page cut out of the joined history. *)
Lemma getWatchHistory_run (w : World) (u : User.t)
      (query_page query_limit : option string) :
  NoDup (map User._id (users w)) ->
  In u (users w) ->
  let page := Js.num_or (Js.parseInt query_page) 1 in
  let limit := Js.num_or (Js.parseInt query_limit) 10 in
  (1 <= page)%Z -> (1 <= limit)%Z ->
  getWatchHistory (User._id u) query_page query_limit w =
  (Normal (mkResponse 200 []
             (mkApiResponse 200
                (PVideos
                   (firstn (Z.to_nat limit)
                      (skipn (Z.to_nat ((page - 1) * limit))
                         (concat (map (lookup_videos w)
                                      (rev (User.watchHistory u)))))))
                (Some "Watch history fetched successfully"))), w).
Proof.
  intros Hnd Hin page limit Hpage Hlimit.
  unfold getWatchHistory, User_findById. run.
  rewrite (find_key_in User._id _ _ Hnd Hin). run.
  fold page limit.
  replace (page <? 1)%Z with false by (symmetry; apply Z.ltb_ge; lia).
  replace (limit <? 1)%Z with false by (symmetry; apply Z.ltb_ge; lia).
  run. unfold watchHistory_pipeline.
  rewrite (filter_key_unique User._id _ _ Hnd),
    (find_key_in User._id _ _ Hnd Hin).
  cbn [map concat]. rewrite app_nil_r.
  now destruct (firstn _ _).
Qed.

(** Negative values do reach the guard. *)
Lemma getWatchHistory_rejects_negative (w : World) (user_id : ObjectId)
      (user : User.t) (query_page query_limit : option string) :
  find (fun u => User._id u =? user_id) (users w) = Some user ->
  (Js.num_or (Js.parseInt query_page) 1 < 0 \/
   Js.num_or (Js.parseInt query_limit) 10 < 0)%Z ->
  getWatchHistory user_id query_page query_limit w =
  (Normal (mkResponse 400 []
             (mkApiResponse 400
                (PText "Page and limit must be positive integers") None)), w).
Proof.
  intros Hfind Hneg. unfold getWatchHistory, User_findById. run.
  rewrite Hfind. run.
  replace ((Js.num_or (Js.parseInt query_page) 1 <? 1)%Z
           || (Js.num_or (Js.parseInt query_limit) 10 <? 1)%Z)%bool with true;
    [reflexivity|].
  symmetry. apply orb_true_iff.
  destruct Hneg; [left|right]; apply Z.ltb_lt; lia.
Qed.

Lemma num_or_positive (q : option string) (n d : Z) :
  Js.parseInt q = Some n -> (1 <= n)%Z -> Js.num_or (Js.parseInt q) d = n.
Proof.
  intros -> Hn. unfold Js.num_or.
  destruct (Z.eqb_spec n 0); [lia|reflexivity].
Qed.

(** C1: for an existing viewer and a request whose page and limit parse
    to integers of at least one, the handler answers 200 with video
    summaries whose identifiers are the stored watch history reversed,
    restricted to published videos, with [(page - 1) * limit] entries
    skipped and at most [limit] kept; every summary is that of a published
    video of the store.  In particular a history [A; B; C] with page 1 and
    limit 10 gives the published ones among [C; B; A], in that order. *)
Theorem getWatchHistory_newest_first (w : World) (u : User.t)
        (query_page query_limit : option string) (page limit : Z) :
  unique_ids w ->
  In u (users w) ->
  Js.parseInt query_page = Some page ->
  Js.parseInt query_limit = Some limit ->
  (1 <= page)%Z -> (1 <= limit)%Z ->
  exists out,
    getWatchHistory (User._id u) query_page query_limit w
      = (Normal (mkResponse 200 []
                   (mkApiResponse 200 (PVideos out)
                      (Some "Watch history fetched successfully"))), w) /\
    map vs_id out = history_page w (User.watchHistory u) page limit /\
    Forall (fun s => exists v, In v (videos w) /\ Video.isPublished v = true /\
                               s = summarize w v) out /\
    (forall A B C,
       User.watchHistory u = [A; B; C] -> page = 1%Z -> limit = 10%Z ->
       map vs_id out = filter (published w) [C; B; A]).
Proof.
  intros [Hu Hv] Hin Hp Hl Hpage Hlimit.
  pose proof (getWatchHistory_run w u query_page query_limit Hu Hin) as Hrun.
  cbv zeta in Hrun.
  rewrite (num_or_positive _ _ _ Hp Hpage),
    (num_or_positive _ _ _ Hl Hlimit) in Hrun.
  specialize (Hrun Hpage Hlimit).
  eexists. split; [exact Hrun|].
  assert (Hids : map vs_id
            (firstn (Z.to_nat limit)
               (skipn (Z.to_nat ((page - 1) * limit))
                  (concat (map (lookup_videos w) (rev (User.watchHistory u))))))
          = history_page w (User.watchHistory u) page limit).
  { unfold history_page.
    now rewrite <- firstn_map, <- skipn_map, (joined_ids _ _ Hv). }
  split; [exact Hids|]. split.
  - apply Forall_page, joined_published, Hv.
  - intros A B C Hhist -> ->. rewrite Hids, Hhist. unfold history_page.
    change (Z.to_nat ((1 - 1) * 10)) with 0%nat.
    change (Z.to_nat 10) with 10%nat.
    cbn [rev app skipn]. apply firstn_all2.
    pose proof (filter_length_le (published w) [C; B; A]) as Hlen.
    cbn [length] in Hlen. lia.
Qed.

Lemma getWatchHistory_newest_first_witness :
  exists out,
    getWatchHistory "64b000000000000000000001" (Some "1") (Some "10")
                    Sample.world
      = (Normal (mkResponse 200 []
                   (mkApiResponse 200 (PVideos out)
                      (Some "Watch history fetched successfully"))),
         Sample.world) /\
    map vs_id out = ["65c00000000000000000000c"; "65c00000000000000000000a"].
Proof.
  destruct (getWatchHistory_newest_first Sample.world Sample.alice
              (Some "1") (Some "10") 1 10) as (out & Hrun & _ & _ & Hids).
  - split; simpl; repeat constructor; simpl; intuition discriminate.
  - now left.
  - reflexivity.
  - reflexivity.
  - lia.
  - lia.
  - exists out. split; [exact Hrun|].
    exact (Hids _ _ _ eq_refl eq_refl eq_refl).
Defined.

(** C2 fails on the code for a page or limit of zero: [parseInt] gives 0,
    which [||] replaces by the default, so the request is served as page 1
    (limit 10) with status 200 instead of being refused. *)
Theorem getWatchHistory_accepts_zero (w : World) (user_id : ObjectId)
        (user : User.t) :
  find (fun u => User._id u =? user_id) (users w) = Some user ->
  getWatchHistory user_id (Some "0") (Some "0") w
    = getWatchHistory user_id (Some "1") (Some "10") w /\
  exists out,
    getWatchHistory user_id (Some "0") (Some "0") w
      = (Normal (mkResponse 200 []
                   (mkApiResponse 200 (PVideos out)
                      (Some "Watch history fetched successfully"))), w).
Proof.
  intros Hfind. split; [reflexivity|].
  unfold getWatchHistory, User_findById. run. rewrite Hfind. run.
  eexists. reflexivity.
Qed.

Lemma getWatchHistory_accepts_zero_witness :
  getWatchHistory "64b000000000000000000001" (Some "0") (Some "0") Sample.world
    = getWatchHistory "64b000000000000000000001" (Some "1") (Some "10")
                      Sample.world /\
  exists out,
    getWatchHistory "64b000000000000000000001" (Some "0") (Some "0")
                    Sample.world
      = (Normal (mkResponse 200 []
                   (mkApiResponse 200 (PVideos out)
                      (Some "Watch history fetched successfully"))),
         Sample.world).
Proof.
  apply (getWatchHistory_accepts_zero Sample.world "64b000000000000000000001"
           Sample.alice).
  reflexivity.
Defined.

(** ** Push to history *)

Lemma update_first_ids (id : ObjectId) (f : User.t -> User.t) (l : list User.t) :
  (forall u, User._id (f u) = User._id u) ->
  map User._id (update_first id f l) = map User._id l.
Proof.
  intros Hf. induction l as [|u l IH]; simpl; [reflexivity|].
  destruct (User._id u =? id); simpl; [now rewrite Hf|now rewrite IH].
Qed.

Lemma find_update_first (id : ObjectId) (f : User.t -> User.t) (l : list User.t) :
  (forall u, User._id (f u) = User._id u) ->
  find (fun u => User._id u =? id) (update_first id f l)
    = option_map f (find (fun u => User._id u =? id) l).
Proof.
  intros Hf. induction l as [|u l IH]; simpl; [reflexivity|].
  destruct (User._id u =? id) eqn:E; simpl.
  - now rewrite Hf, E.
  - now rewrite E.
Qed.

Lemma pushVideoToWatchHistory_run isValidObjectId castObjectId
      (user_id : ObjectId) (videoId : string) (video : Video.t) (u : User.t)
      (w : World) :
  isValidObjectId videoId = true ->
  find (fun v => (Video._id v =? castObjectId videoId) && Video.isPublished v)%bool
       (videos w) = Some video ->
  find (fun x => User._id x =? user_id) (users w) = Some u ->
  pushVideoToWatchHistory isValidObjectId castObjectId user_id videoId w =
  (Normal (mkResponse 200 []
             (mkApiResponse 200
                (PHistory (mkHistoryView (User._id u) (User.username u)
                             (User.watchHistory u ++ [Video._id video])))
                (Some "Video added to watchHistory successfully"))),
   with_users (update_first user_id
                 (User.push_watchHistory (Video._id video)) (users w)) w).
Proof.
  intros Hvalid Hvideo Huser.
  unfold pushVideoToWatchHistory, Video_findOne_published,
    User_findByIdAndUpdate, User_findById.
  rewrite Hvalid. run. rewrite Hvideo. run. rewrite Huser. reflexivity.
Qed.

(** C3: pushing the same published video twice appends its identifier
    twice at the end of the viewer's stored sequence, as the second answer
    shows, and the aggregator does not merge the two entries: the first
    page, for any limit of at least two, starts with that video twice. *)
Theorem pushVideoToWatchHistory_twice isValidObjectId castObjectId
        (u : User.t) (videoId : string) (video : Video.t) (w : World) :
  unique_ids w ->
  In u (users w) ->
  isValidObjectId videoId = true ->
  find (fun v => (Video._id v =? castObjectId videoId) && Video.isPublished v)%bool
       (videos w) = Some video ->
  let X := Video._id video in
  let push := pushVideoToWatchHistory isValidObjectId castObjectId
                                      (User._id u) videoId in
  exists r1 w1 r2 w2 u2,
    push w = (Normal r1, w1) /\
    push w1 = (Normal r2, w2) /\
    find (fun x => User._id x =? User._id u) (users w2) = Some u2 /\
    User.watchHistory u2 = User.watchHistory u ++ [X; X] /\
    ar_data (body r2)
      = PHistory (mkHistoryView (User._id u) (User.username u)
                                (User.watchHistory u ++ [X; X])) /\
    forall query_limit limit,
      Js.parseInt query_limit = Some limit -> (2 <= limit)%Z ->
      exists rest,
        getWatchHistory (User._id u) (Some "1") query_limit w2
          = (Normal (mkResponse 200 []
                       (mkApiResponse 200
                          (PVideos (summarize w2 video :: summarize w2 video
                                    :: rest))
                          (Some "Watch history fetched successfully"))), w2) /\
        vs_id (summarize w2 video) = X.
Proof.
  intros [Hu Hv] Hin Hvalid Hvideo X push.
  set (f := User.push_watchHistory X).
  assert (Hf : forall x, User._id (f x) = User._id x) by reflexivity.
  pose proof (find_key_in User._id _ _ Hu Hin) as Hfind.
  set (w1 := with_users (update_first (User._id u) f (users w)) w).
  set (w2 := with_users (update_first (User._id u) f (users w1)) w1).
  assert (Hfind1 : find (fun x => User._id x =? User._id u) (users w1)
                   = Some (f u)).
  { change (users w1) with (update_first (User._id u) f (users w)).
    now rewrite (find_update_first _ _ _ Hf), Hfind. }
  assert (Hfind2 : find (fun x => User._id x =? User._id u) (users w2)
                   = Some (f (f u))).
  { change (users w2) with (update_first (User._id u) f (users w1)).
    now rewrite (find_update_first _ _ _ Hf), Hfind1. }
  assert (Hu2 : NoDup (map User._id (users w2))).
  { change (users w2)
      with (update_first (User._id u) f
              (update_first (User._id u) f (users w))).
    now rewrite !(update_first_ids _ _ _ Hf). }
  do 2 eexists. exists (mkResponse 200 []
    (mkApiResponse 200
       (PHistory (mkHistoryView (User._id u) (User.username u)
                    ((User.watchHistory u ++ [X]) ++ [X])))
       (Some "Video added to watchHistory successfully"))), w2, (f (f u)).
  split; [exact (pushVideoToWatchHistory_run _ _ _ _ _ _ _ Hvalid Hvideo Hfind)|].
  split; [exact (pushVideoToWatchHistory_run _ _ _ _ _ _ w1 Hvalid Hvideo Hfind1)|].
  split; [exact Hfind2|].
  split; [simpl; now rewrite <- app_assoc|].
  split; [simpl; now rewrite <- app_assoc|].
  intros query_limit limit Hl Hlimit.
  apply find_some in Hfind2 as Hin2. destruct Hin2 as [Hin2 _].
  pose proof (getWatchHistory_run w2 (f (f u)) (Some "1") query_limit Hu2 Hin2)
    as Hrun.
  cbv zeta in Hrun.
  rewrite (num_or_positive _ _ _ Hl ltac:(lia)) in Hrun.
  specialize (Hrun ltac:(simpl; lia) ltac:(lia)).
  change (User._id (f (f u))) with (User._id u) in Hrun.
  change (User.watchHistory (f (f u)))
    with ((User.watchHistory u ++ [X]) ++ [X]) in Hrun.
  rewrite !rev_app_distr in Hrun. cbn [rev app map concat] in Hrun.
  apply find_some in Hvideo as Hv'. destruct Hv' as [Hvin Hvok].
  apply andb_true_iff in Hvok as [_ Hpub].
  assert (Hjoin : lookup_videos w2 X = [summarize w2 video]).
  { rewrite (lookup_videos_unique w2 X Hv).
    change (videos w2) with (videos w).
    unfold X. now rewrite (find_key_in Video._id _ _ Hv Hvin), Hpub. }
  rewrite Hjoin in Hrun. cbn [app] in Hrun.
  change (Z.to_nat ((Js.num_or (Js.parseInt (Some "1")) 1 - 1) * limit))
    with (Z.to_nat (0 * limit)) in Hrun.
  rewrite Z.mul_0_l in Hrun. cbn [Z.to_nat skipn] in Hrun.
  destruct (Z.to_nat limit) as [|[|n]] eqn:Hn; [lia|lia|].
  cbn [firstn] in Hrun. eexists. split; [exact Hrun|reflexivity].
Qed.

Lemma pushVideoToWatchHistory_twice_witness :
  let push := pushVideoToWatchHistory Sample.isValidObjectId
                Sample.castObjectId "64b000000000000000000001"
                "65C00000000000000000000A" in
  exists r1 w1 r2 w2 u2,
    push Sample.world = (Normal r1, w1) /\
    push w1 = (Normal r2, w2) /\
    find (fun x => User._id x =? "64b000000000000000000001") (users w2)
      = Some u2 /\
    User.watchHistory u2
      = ["65c00000000000000000000a"; "65c00000000000000000000b";
         "65c00000000000000000000c"; "65c00000000000000000000a";
         "65c00000000000000000000a"] /\
    exists rest,
      getWatchHistory "64b000000000000000000001" (Some "1") (Some "2") w2
        = (Normal (mkResponse 200 []
                     (mkApiResponse 200
                        (PVideos (summarize w2 Sample.videoA
                                  :: summarize w2 Sample.videoA :: rest))
                        (Some "Watch history fetched successfully"))), w2).
Proof.
  intros push.
  destruct (pushVideoToWatchHistory_twice Sample.isValidObjectId
              Sample.castObjectId Sample.alice "65C00000000000000000000A"
              Sample.videoA Sample.world)
    as (r1 & w1 & r2 & w2 & u2 & H1 & H2 & Hfind & Hhist & _ & Hpage).
  - split; simpl; repeat constructor; simpl; intuition discriminate.
  - now left.
  - reflexivity.
  - reflexivity.
  - exists r1, w1, r2, w2, u2. repeat split; try assumption.
    destruct (Hpage (Some "2") 2%Z eq_refl ltac:(lia)) as (rest & Hrun & _).
    now exists rest.
Defined.

(** C4, as stated, fails: pushing the identifier of the unpublished video
    of the sample world, or an identifier no video has, is refused with
    status 400, the status of a validation error, not of a
    NotFoundError. *)
Lemma pushVideoToWatchHistory_missing_video_is_400 :
  pushVideoToWatchHistory Sample.isValidObjectId Sample.castObjectId
                          "64b000000000000000000001"
                          "65c00000000000000000000b" Sample.world
    = (Throw (ApiError 400 "video not found"), Sample.world) /\
  pushVideoToWatchHistory Sample.isValidObjectId Sample.castObjectId
                          "64b000000000000000000001"
                          "65c0000000000000000000ff" Sample.world
    = (Throw (ApiError 400 "video not found"), Sample.world) /\
  class_of (ApiError 400 "video not found") <> Some NotFoundError.
Proof.
  repeat split. discriminate.
Qed.

(** C4 (amended): push-to-history fails with a 400 error in both cases,
    "video id is not a valid object id" for a malformed identifier and
    "video not found" when no published video has the identifier (the video
    does not exist or is unpublished); in both cases the world, and with it
    every watch-history sequence, is unchanged. *)
Theorem pushVideoToWatchHistory_failures isValidObjectId castObjectId
        (user_id : ObjectId) (videoId : string) (w : World) :
  (isValidObjectId videoId = false ->
   pushVideoToWatchHistory isValidObjectId castObjectId user_id videoId w
     = (Throw (ApiError 400 "video id is not a valid object id"), w)) /\
  (isValidObjectId videoId = true ->
   (forall v, In v (videos w) -> Video._id v = castObjectId videoId ->
              Video.isPublished v = false) ->
   pushVideoToWatchHistory isValidObjectId castObjectId user_id videoId w
     = (Throw (ApiError 400 "video not found"), w)).
Proof.
  split.
  - intros Hbad. unfold pushVideoToWatchHistory. now rewrite Hbad.
  - intros Hvalid Hnone.
    unfold pushVideoToWatchHistory, Video_findOne_published.
    rewrite Hvalid. run.
    destruct (find _ (videos w)) as [v|] eqn:Hfind; [|reflexivity].
    apply find_some in Hfind as [Hin Hok].
    apply andb_true_iff in Hok as [Hid Hpub]. apply String.eqb_eq in Hid.
    now rewrite (Hnone v Hin Hid) in Hpub.
Qed.

Lemma pushVideoToWatchHistory_failures_witness :
  pushVideoToWatchHistory Sample.isValidObjectId Sample.castObjectId
                          "64b000000000000000000001" "not-an-id" Sample.world
    = (Throw (ApiError 400 "video id is not a valid object id"), Sample.world) /\
  pushVideoToWatchHistory Sample.isValidObjectId Sample.castObjectId
                          "64b000000000000000000001"
                          "65c00000000000000000000b" Sample.world
    = (Throw (ApiError 400 "video not found"), Sample.world).
Proof.
  split.
  - apply (pushVideoToWatchHistory_failures Sample.isValidObjectId
             Sample.castObjectId "64b000000000000000000001" "not-an-id"
             Sample.world).
    reflexivity.
  - apply (pushVideoToWatchHistory_failures Sample.isValidObjectId
             Sample.castObjectId "64b000000000000000000001"
             "65c00000000000000000000b" Sample.world).
    + reflexivity.
    + simpl. intros v [<-|[<-|[<-|[]]]]; simpl; intros H;
        [discriminate|reflexivity|discriminate].
Defined.

(** * Further properties of the handlers *)

(** ** OTP verification *)

(** X1: a verification that is refused changes nothing, so the OTP is
    still there for another attempt; what it throws is always an ApiError
    with status 400 (a missing field) or 404 (everything else). *)
Theorem verifyOtp_refusal_keeps_world isOtpCorrect email otp url now w e w' :
  verifyOtp isOtpCorrect email otp url now w = (Throw e, w') ->
  w' = w /\
  (e = ApiError 400 "Email and otp is required" \/
   exists m, e = ApiError 404 m).
Proof.
  unfold verifyOtp, Otp_findOne, Otp_deleteOne. run.
  destruct (negb (Js.truthy email) || negb (Js.truthy otp))%bool;
    [intros [= <- <-]; split; [reflexivity|now left]|].
  destruct (find _ (otps w)) as [r|];
    [|intros [= <- <-]; split; [reflexivity|right; eauto]].
  destruct (Otp.expires r <? now)%Z;
    [intros [= <- <-]; split; [reflexivity|right; eauto]|].
  destruct (differs _ _);
    [intros [= <- <-]; split; [reflexivity|right; eauto]|].
  destruct (isOtpCorrect r _); simpl;
    [discriminate|intros [= <- <-]; split; [reflexivity|right; eauto]].
Qed.

Lemma verifyOtp_refusal_keeps_world_witness :
  Sample.world = Sample.world /\
  (ApiError 404 "Invalid otp" = ApiError 400 "Email and otp is required" \/
   exists m, ApiError 404 "Invalid otp" = ApiError 404 m).
Proof.
  apply (verifyOtp_refusal_keeps_world Sample.isOtpCorrect
           (Some "carol@example.org") (Some "000000") "/register" 4000
           Sample.world).
  reflexivity.
Defined.

(** X2: the middleware lets a request through exactly when email and code
    are non-empty, a record exists for the email, its expiry is not before
    the current time (a record expiring at this very instant still counts),
    the second path segment of the URL is the record's context and the
    model accepts the code. *)
Theorem verifyOtp_passes_iff isOtpCorrect email code url now w :
  (exists v w',
     verifyOtp isOtpCorrect (Some email) (Some code) url now w = (Normal v, w'))
  <->
  (email <> "" /\ code <> "" /\
   exists r,
     find (fun o => Otp.email o =? email) (otps w) = Some r /\
     (now <= Otp.expires r)%Z /\
     route_context url = Some (Otp.context r) /\
     isOtpCorrect r code = true).
Proof.
  split.
  - intros (v & w' & Hrun).
    destruct (verifyOtp_success _ _ _ _ _ _ _ _ Hrun)
      as (e & c & r & [= <-] & [= <-] & He & Hc & Hfind & Hexp & Hctx & Hok & _).
    repeat split; try assumption. exists r. repeat split; try assumption.
    apply Z.ltb_ge in Hexp. lia.
  - intros (He & Hc & r & Hfind & Hexp & Hctx & Hok).
    exists true, (with_otps (delete_first (Otp.email r) (otps w)) w).
    unfold verifyOtp. rewrite !truthy_some by assumption.
    run. unfold Otp_findOne. run. rewrite Hfind.
    replace (Otp.expires r <? now)%Z with false
      by (symmetry; apply Z.ltb_ge; lia).
    run. rewrite Hctx. unfold differs. rewrite String.eqb_refl, Hok.
    reflexivity.
Qed.

Lemma delete_first_others (email other : string) (l : list Otp.t) :
  other <> email ->
  filter (fun o => Otp.email o =? other) (delete_first email l)
    = filter (fun o => Otp.email o =? other) l.
Proof.
  intros Hne. induction l as [|o l IH]; simpl; [reflexivity|].
  destruct (String.eqb_spec (Otp.email o) email) as [E|E].
  - destruct (String.eqb_spec (Otp.email o) other); [congruence|reflexivity].
  - simpl. now rewrite IH.
Qed.

Lemma delete_first_length (email : string) (l : list Otp.t) (r : Otp.t) :
  find (fun o => Otp.email o =? email) l = Some r ->
  S (length (delete_first email l)) = length l.
Proof.
  induction l as [|o l IH]; simpl; [discriminate|].
  destruct (Otp.email o =? email); [reflexivity|].
  intros H. simpl. now rewrite IH.
Qed.

(** X3: a successful verification consumes exactly one OTP record, of the
    verified email: the records of every other email are all still there, in
    order, and users, videos and subscriptions are untouched. *)
Theorem verifyOtp_consumes_one_record isOtpCorrect email code url now w v w' :
  verifyOtp isOtpCorrect (Some email) (Some code) url now w = (Normal v, w') ->
  S (length (otps w')) = length (otps w) /\
  (forall other, other <> email ->
     filter (fun o => Otp.email o =? other) (otps w')
       = filter (fun o => Otp.email o =? other) (otps w)) /\
  users w' = users w /\ videos w' = videos w /\
  subscriptions w' = subscriptions w.
Proof.
  intros Hrun.
  destruct (verifyOtp_success _ _ _ _ _ _ _ _ Hrun)
    as (e & c & r & [= <-] & [= <-] & _ & _ & Hfind & _ & _ & _ & _ & ->).
  simpl. split; [now apply (delete_first_length _ _ r)|].
  split; [|now repeat split].
  intros other Hne. now apply delete_first_others.
Qed.

Lemma verifyOtp_consumes_one_record_witness :
  let w' := with_otps [] Sample.world in
  S (length (otps w')) = length (otps Sample.world) /\
  (forall other, other <> "carol@example.org" ->
     filter (fun o => Otp.email o =? other) (otps w')
       = filter (fun o => Otp.email o =? other) (otps Sample.world)) /\
  users w' = users Sample.world /\ videos w' = videos Sample.world /\
  subscriptions w' = subscriptions Sample.world.
Proof.
  apply (verifyOtp_consumes_one_record Sample.isOtpCorrect "carol@example.org"
           "482913" "/register" 4000 Sample.world true).
  reflexivity.
Defined.

Lemma split_no_separator (sep : ascii) (s : string) :
  (forall c, In c (list_ascii_of_string s) -> c <> sep) ->
  Js.split sep s = [s].
Proof.
  induction s as [|c s IH]; simpl; intros Hno; [reflexivity|].
  destruct (Ascii.eqb_spec c sep) as [E|_].
  - exfalso. apply (Hno c); [now left|exact E].
  - rewrite IH; [reflexivity|]. intros d Hd. apply Hno. now right.
Qed.

Lemma split_append (sep : ascii) (a b : string) :
  (forall c, In c (list_ascii_of_string a) -> c <> sep) ->
  Js.split sep (a ++ String sep b) = a :: Js.split sep b.
Proof.
  induction a as [|c a IH]; simpl; intros Hno.
  - now rewrite Ascii.eqb_refl.
  - destruct (Ascii.eqb_spec c sep) as [E|_].
    + exfalso. apply (Hno c); [now left|exact E].
    + rewrite IH; [reflexivity|]. intros d Hd. apply Hno. now right.
Qed.

(** X4: the context the middleware reads off the URL is its first path
    segment: for a tag without a slash, [/tag] and [/tag/anything] both give
    that tag, and a URL without a slash gives none, so it matches no
    record. *)
Theorem route_context_first_segment (tag rest : string) :
  (forall c, In c (list_ascii_of_string tag) -> c <> "/"%char) ->
  route_context (String "/" tag) = Some tag /\
  route_context (String "/" (tag ++ String "/" rest)) = Some tag /\
  route_context tag = None.
Proof.
  intros Hno. unfold route_context. simpl.
  rewrite (split_append _ _ _ Hno), (split_no_separator _ _ Hno).
  repeat split.
Qed.

Lemma route_context_first_segment_witness :
  route_context "/register" = Some "register" /\
  route_context "/register/step-2" = Some "register" /\
  route_context "register" = None.
Proof.
  apply (route_context_first_segment "register" "step-2").
  simpl. intros c H.
  repeat (destruct H as [<-|H]; [discriminate|]). destruct H.
Defined.

(** ** Session tokens *)

Lemma with_users_same (w : World) : with_users (users w) w = w.
Proof. now destruct w. Qed.

Lemma update_first_absent (id : ObjectId) (f : User.t -> User.t)
      (l : list User.t) :
  find (fun u => User._id u =? id) l = None -> update_first id f l = l.
Proof.
  induction l as [|u l IH]; simpl; [reflexivity|].
  destruct (User._id u =? id); [discriminate|].
  intros H. now rewrite IH.
Qed.

Lemma find_update_first_other (id other : ObjectId) (f : User.t -> User.t)
      (l : list User.t) :
  (forall u, User._id (f u) = User._id u) ->
  other <> id ->
  find (fun u => User._id u =? other) (update_first id f l)
    = find (fun u => User._id u =? other) l.
Proof.
  intros Hf Hne. induction l as [|u l IH]; simpl; [reflexivity|].
  destruct (String.eqb_spec (User._id u) id) as [E|E]; simpl.
  - rewrite Hf.
    destruct (String.eqb_spec (User._id u) other); [congruence|reflexivity].
  - now rewrite IH.
Qed.

Lemma find_by_own_id (id : ObjectId) (u : User.t) (l : list User.t) :
  find (fun x => User._id x =? id) l = Some u ->
  find (fun x => User._id x =? User._id u) l = Some u.
Proof.
  intros H. apply find_some in H as H'. destruct H' as [_ E].
  apply String.eqb_eq in E. now rewrite E.
Qed.

(** The two ways [generateAccessAndRefreshTokens] can end. *)
Lemma generate_tokens_cases gA gR (id : ObjectId) (w : World) :
  (exists u a r,
     find (fun x => User._id x =? id) (users w) = Some u /\
     gA u = inr a /\ gR u = inr r /\
     generateAccessAndRefreshTokens gA gR id w
       = (Normal (a, r),
          with_users (update_first id (User.set_refreshToken (Some r))
                                   (users w)) w)) \/
  ((forall u a r, find (fun x => User._id x =? id) (users w) = Some u ->
                  gA u = inr a -> gR u = inr r -> False) /\
   generateAccessAndRefreshTokens gA gR id w
     = (Throw (ApiError 500 "Something went wrong"), w)).
Proof.
  unfold generateAccessAndRefreshTokens, User_findById. run.
  destruct (find _ (users w)) as [u|] eqn:Hfind;
    [|right; split; [intros; discriminate|reflexivity]].
  apply find_some in Hfind as Hu. destruct Hu as [_ Hid].
  apply String.eqb_eq in Hid.
  destruct (gA u) as [e|a] eqn:Ha; simpl;
    [right; split; [intros ? ? ? [= <-]; congruence|reflexivity]|].
  destruct (gR u) as [e|r] eqn:Hr; simpl;
    [right; split; [intros ? ? ? [= <-]; congruence|reflexivity]|].
  left. exists u, a, r. rewrite Hid. now repeat split.
Qed.

(** X5: [generateAccessAndRefreshTokens] is all or nothing.  When the user
    exists and both tokens can be generated it returns them and stores the
    refresh token on that user only; otherwise it throws the 500 error
    "Something went wrong", whatever went wrong, and the store is
    unchanged. *)
Theorem generateAccessAndRefreshTokens_all_or_nothing gA gR id w c w' :
  generateAccessAndRefreshTokens gA gR id w = (c, w') ->
  match c with
  | Normal (a, r) =>
      exists u,
        find (fun x => User._id x =? id) (users w) = Some u /\
        gA u = inr a /\ gR u = inr r /\
        find (fun x => User._id x =? id) (users w')
          = Some (User.set_refreshToken (Some r) u) /\
        forall other, other <> id ->
          find (fun x => User._id x =? other) (users w')
            = find (fun x => User._id x =? other) (users w)
  | Throw e => e = ApiError 500 "Something went wrong" /\ w' = w
  end.
Proof.
  intros Hrun.
  destruct (generate_tokens_cases gA gR id w)
    as [(u & a & r & Hfind & Ha & Hr & Hgen)|[_ Hgen]];
    rewrite Hgen in Hrun; injection Hrun as <- <-; [|now split].
  exists u. repeat split; try assumption.
  - simpl. now rewrite find_update_first, Hfind.
  - intros other Hne. simpl. now apply find_update_first_other.
Qed.

Lemma generateAccessAndRefreshTokens_all_or_nothing_witness :
  exists u,
    find (fun x => User._id x =? "64b000000000000000000002")
         (users Sample.world) = Some u /\
    Sample.generateAccessToken u = inr "access-bob" /\
    Sample.generateRefreshToken u = inr "refresh-bob-3" /\
    find (fun x => User._id x =? "64b000000000000000000002")
         (users (with_users
                   [Sample.alice;
                    User.set_refreshToken (Some "refresh-bob-3") Sample.bob]
                   Sample.world))
      = Some (User.set_refreshToken (Some "refresh-bob-3") u) /\
    forall other, other <> "64b000000000000000000002" ->
      find (fun x => User._id x =? other)
           (users (with_users
                     [Sample.alice;
                      User.set_refreshToken (Some "refresh-bob-3") Sample.bob]
                     Sample.world))
        = find (fun x => User._id x =? other) (users Sample.world).
Proof.
  apply (generateAccessAndRefreshTokens_all_or_nothing
           Sample.generateAccessToken Sample.generateRefreshToken
           "64b000000000000000000002" Sample.world
           (Normal ("access-bob", "refresh-bob-3"))).
  reflexivity.
Defined.

(** X6: whatever goes wrong in a refresh-token exchange, a missing token, a
    token the verifier rejects, an unknown user, a stale token or a failure
    while generating the new pair, the caller gets an ApiError with status
    401, and the store is left as it was. *)
Theorem refreshAccessToken_failure_is_401 jwt_verify gA gR cookie body_token
        w e w' :
  refreshAccessToken jwt_verify gA gR cookie body_token w = (Throw e, w') ->
  w' = w /\ exists m, e = ApiError 401 m.
Proof.
  unfold refreshAccessToken, User_findById. run.
  destruct (negb (Js.truthy (Js.or_else cookie body_token)));
    [intros [= <- <-]; eauto|].
  destruct (jwt_verify _) as [err|payload]; simpl;
    [intros [= <- <-]; eauto|].
  assert (Hnone : forall w0 : World,
            (@Throw Response (ApiError 401 "Invalid refresh token"), w0)
              = (Throw e, w')
            -> w' = w0 /\ exists m, e = ApiError 401 m)
    by (intros w0 [= <- <-]; eauto).
  destruct (tp_id payload) as [id|]; simpl; [|apply Hnone].
  destruct (find _ (users w)) as [user|]; [|apply Hnone].
  destruct (negb (same_token _ _)); [intros [= <- <-]; eauto|].
  destruct (generate_tokens_cases gA gR (User._id user) w)
    as [(u & a & r & _ & _ & _ & Hgen)|[_ Hgen]]; rewrite Hgen; simpl.
  - discriminate.
  - intros [= <- <-]; eauto.
Qed.

Lemma refreshAccessToken_failure_is_401_witness :
  Sample.world = Sample.world /\
  exists m, ApiError 401 "invalid signature" = ApiError 401 m.
Proof.
  apply (refreshAccessToken_failure_is_401 Sample.jwt_verify
           Sample.generateAccessToken Sample.generateRefreshToken
           None (Some "forged") Sample.world).
  reflexivity.
Defined.

(** A refresh with the stored token, when both new tokens can be
    generated. *)
Lemma refreshAccessToken_success jwt_verify gA gR cookie body_token token
      payload id user a r w :
  Js.or_else cookie body_token = Some token ->
  token <> "" ->
  jwt_verify token = inr payload ->
  tp_id payload = Some id ->
  find (fun u => User._id u =? id) (users w) = Some user ->
  User.refreshToken user = Some token ->
  gA user = inr a -> gR user = inr r ->
  refreshAccessToken jwt_verify gA gR cookie body_token w
    = (Normal (mkResponse 200 [("accessToken", a); ("refreshToken", r)]
                 (mkApiResponse 200 (PTokens a r)
                                (Some "Access token refreshed"))),
       with_users (update_first id (User.set_refreshToken (Some r)) (users w))
                  w).
Proof.
  intros Hin Htok Hjwt Hid Hfind Hstored Ha Hr.
  pose proof (find_by_own_id _ _ _ Hfind) as Hown.
  apply find_some in Hfind as Hu. destruct Hu as [_ Heq].
  apply String.eqb_eq in Heq.
  unfold refreshAccessToken. rewrite Hin, (truthy_some _ Htok).
  run. rewrite Hjwt. run. rewrite Hid. unfold User_findById. run.
  rewrite Hfind, Hstored. unfold same_token. rewrite String.eqb_refl. run.
  unfold generateAccessAndRefreshTokens, User_findById. run.
  rewrite Hown, Ha. run. rewrite Hr. run. now rewrite Heq.
Qed.

(** X7: refresh tokens rotate.  An exchange with the stored token answers
    200 with a new pair, in the body and in the two cookies, and stores the
    new refresh token; if it differs from the old one, presenting the old
    token again is refused with the 401 error "Refresh token is expired or
    used". *)
Theorem refreshAccessToken_rotates jwt_verify gA gR cookie body_token token
        payload id user a r w :
  Js.or_else cookie body_token = Some token ->
  token <> "" ->
  jwt_verify token = inr payload ->
  tp_id payload = Some id ->
  find (fun u => User._id u =? id) (users w) = Some user ->
  User.refreshToken user = Some token ->
  gA user = inr a -> gR user = inr r ->
  exists w',
    refreshAccessToken jwt_verify gA gR cookie body_token w
      = (Normal (mkResponse 200 [("accessToken", a); ("refreshToken", r)]
                   (mkApiResponse 200 (PTokens a r)
                                  (Some "Access token refreshed"))), w') /\
    find (fun u => User._id u =? id) (users w')
      = Some (User.set_refreshToken (Some r) user) /\
    (r <> token ->
     refreshAccessToken jwt_verify gA gR cookie body_token w'
       = (Throw (ApiError 401 "Refresh token is expired or used"), w')).
Proof.
  intros Hin Htok Hjwt Hid Hfind Hstored Ha Hr.
  eexists. split; [now apply (refreshAccessToken_success _ _ _ _ _ token
                                payload id user a r)|].
  assert (Hnew : find (fun u => User._id u =? id)
                   (users (with_users
                             (update_first id (User.set_refreshToken (Some r))
                                           (users w)) w))
                 = Some (User.set_refreshToken (Some r) user))
    by (simpl; now rewrite find_update_first, Hfind).
  split; [exact Hnew|].
  intros Hne. unfold refreshAccessToken. rewrite Hin, (truthy_some _ Htok).
  run. rewrite Hjwt. run. rewrite Hid. unfold User_findById. run.
  rewrite Hnew. unfold same_token.
  change (User.refreshToken (User.set_refreshToken (Some r) user))
    with (Some r).
  run.
  destruct (String.eqb_spec token r) as [E|_]; [now contradiction Hne|].
  reflexivity.
Qed.

Lemma refreshAccessToken_rotates_witness :
  exists w',
    refreshAccessToken Sample.jwt_verify Sample.generateAccessToken
                       Sample.generateRefreshToken
                       (Some "refresh-alice-2") None Sample.world
      = (Normal (mkResponse 200
                   [("accessToken", "access-alice");
                    ("refreshToken", "refresh-alice-3")]
                   (mkApiResponse 200
                      (PTokens "access-alice" "refresh-alice-3")
                      (Some "Access token refreshed"))), w') /\
    find (fun u => User._id u =? "64b000000000000000000001") (users w')
      = Some (User.set_refreshToken (Some "refresh-alice-3") Sample.alice) /\
    refreshAccessToken Sample.jwt_verify Sample.generateAccessToken
                       Sample.generateRefreshToken
                       (Some "refresh-alice-2") None w'
      = (Throw (ApiError 401 "Refresh token is expired or used"), w').
Proof.
  destruct (refreshAccessToken_rotates Sample.jwt_verify
              Sample.generateAccessToken Sample.generateRefreshToken
              (Some "refresh-alice-2") None "refresh-alice-2"
              (mkTokenPayload (Some "64b000000000000000000001"))
              "64b000000000000000000001" Sample.alice
              "access-alice" "refresh-alice-3" Sample.world)
    as (w' & Hrun & Hstored & Hreplay); try reflexivity; try discriminate.
  exists w'. repeat split; try assumption. apply Hreplay. discriminate.
Defined.

(** ** Login and logout *)

(** X8: a login with an unknown username or email and a login with a wrong
    password get the very same answer, the 404 error "Invalid user
    credentials", and neither changes the store: the answer does not tell
    whether the account exists. *)
Theorem loginUser_bad_credentials isPasswordCorrect gA gR
        username email password w :
  (Js.truthy username || Js.truthy email)%bool = true ->
  match find (fun u => clause username (User.username u)
                       || clause email (User.email u))%bool (users w) with
  | None => True
  | Some u => isPasswordCorrect u password = inr false
  end ->
  loginUser isPasswordCorrect gA gR username email password w
    = (Throw (ApiError 404 "Invalid user credentials"), w).
Proof.
  intros Hgiven Hbad. unfold loginUser, User_findOne_or. rewrite Hgiven. run.
  destruct (find _ (users w)) as [u|]; [|reflexivity].
  now rewrite Hbad.
Qed.

Lemma loginUser_bad_credentials_witness :
  loginUser Fixture.isPasswordCorrect Sample.generateAccessToken
            Sample.generateRefreshToken (Some "alice") None (Some "guess")
            Sample.world
    = (Throw (ApiError 404 "Invalid user credentials"), Sample.world) /\
  loginUser Fixture.isPasswordCorrect Sample.generateAccessToken
            Sample.generateRefreshToken (Some "mallory") None (Some "guess")
            Sample.world
    = (Throw (ApiError 404 "Invalid user credentials"), Sample.world).
Proof.
  split.
  - apply (loginUser_bad_credentials Fixture.isPasswordCorrect
             Sample.generateAccessToken Sample.generateRefreshToken
             (Some "alice") None (Some "guess") Sample.world);
      reflexivity.
  - apply (loginUser_bad_credentials Fixture.isPasswordCorrect
             Sample.generateAccessToken Sample.generateRefreshToken
             (Some "mallory") None (Some "guess") Sample.world);
      [reflexivity|exact I].
Defined.

Lemma loginUser_run isPasswordCorrect gA gR username email password user a r w :
  NoDup (map User._id (users w)) ->
  (Js.truthy username || Js.truthy email)%bool = true ->
  find (fun u => clause username (User.username u)
                 || clause email (User.email u))%bool (users w) = Some user ->
  isPasswordCorrect user password = inr true ->
  gA user = inr a -> gR user = inr r ->
  loginUser isPasswordCorrect gA gR username email password w
    = (Normal (mkReply 200 [("accessToken", a); ("refreshToken", r)] 200
                 (Some (select_public user)) "user logged In Successfully"),
       with_users (update_first (User._id user)
                     (User.set_refreshToken (Some r)) (users w)) w).
Proof.
  intros Hnd Hgiven Hfind Hpw Ha Hr.
  apply find_some in Hfind as Hin. destruct Hin as [Hin _].
  pose proof (find_key_in User._id _ _ Hnd Hin) as Hown.
  unfold loginUser, User_findOne_or. rewrite Hgiven. run.
  rewrite Hfind, Hpw. run.
  unfold generateAccessAndRefreshTokens, User_findById. run.
  rewrite Hown, Ha. run. rewrite Hr. run.
  cbn [users with_users]. now rewrite find_update_first, Hown.
Qed.

(** X9: a login with the right password answers 200 with the user's
    public view, sets the two cookies to the generated tokens and stores the
    refresh token on the user; a refresh-token exchange presenting that
    cookie, if the verifier accepts the token for this user, then succeeds
    with a fresh pair. *)
Theorem loginUser_opens_session isPasswordCorrect jwt_verify gA gR
        username email password user a r payload a2 r2 w :
  NoDup (map User._id (users w)) ->
  (Js.truthy username || Js.truthy email)%bool = true ->
  find (fun u => clause username (User.username u)
                 || clause email (User.email u))%bool (users w) = Some user ->
  isPasswordCorrect user password = inr true ->
  gA user = inr a -> gR user = inr r ->
  r <> "" ->
  jwt_verify r = inr payload ->
  tp_id payload = Some (User._id user) ->
  gA (User.set_refreshToken (Some r) user) = inr a2 ->
  gR (User.set_refreshToken (Some r) user) = inr r2 ->
  exists w' w'',
    loginUser isPasswordCorrect gA gR username email password w
      = (Normal (mkReply 200 [("accessToken", a); ("refreshToken", r)] 200
                   (Some (select_public user)) "user logged In Successfully"),
         w') /\
    find (fun u => User._id u =? User._id user) (users w')
      = Some (User.set_refreshToken (Some r) user) /\
    refreshAccessToken jwt_verify gA gR (Some r) None w'
      = (Normal (mkResponse 200 [("accessToken", a2); ("refreshToken", r2)]
                   (mkApiResponse 200 (PTokens a2 r2)
                                  (Some "Access token refreshed"))), w'').
Proof.
  intros Hnd Hgiven Hfind Hpw Ha Hr Hne Hjwt Hid Ha2 Hr2.
  apply find_some in Hfind as Hin. destruct Hin as [Hin _].
  pose proof (find_key_in User._id _ _ Hnd Hin) as Hown.
  assert (Hnew : find (fun u => User._id u =? User._id user)
                   (users (with_users
                             (update_first (User._id user)
                                (User.set_refreshToken (Some r)) (users w)) w))
                 = Some (User.set_refreshToken (Some r) user))
    by (simpl; now rewrite find_update_first, Hown).
  do 2 eexists.
  split; [now apply loginUser_run|]. split; [exact Hnew|].
  apply (refreshAccessToken_success jwt_verify gA gR (Some r) None r payload
           (User._id user) (User.set_refreshToken (Some r) user) a2 r2);
    try assumption; try reflexivity.
  unfold Js.or_else. now rewrite (truthy_some _ Hne).
Qed.

Lemma loginUser_opens_session_witness :
  exists w' w'',
    loginUser Fixture.isPasswordCorrect Sample.generateAccessToken
              Sample.generateRefreshToken None (Some "bob@example.org")
              (Some "b") Sample.world
      = (Normal (mkReply 200
                   [("accessToken", "access-bob");
                    ("refreshToken", "refresh-bob-3")] 200
                   (Some (select_public Sample.bob))
                   "user logged In Successfully"), w') /\
    find (fun u => User._id u =? "64b000000000000000000002") (users w')
      = Some (User.set_refreshToken (Some "refresh-bob-3") Sample.bob) /\
    refreshAccessToken Fixture.jwt_verify Sample.generateAccessToken
                       Sample.generateRefreshToken
                       (Some "refresh-bob-3") None w'
      = (Normal (mkResponse 200
                   [("accessToken", "access-bob");
                    ("refreshToken", "refresh-bob-3")]
                   (mkApiResponse 200
                      (PTokens "access-bob" "refresh-bob-3")
                      (Some "Access token refreshed"))), w'').
Proof.
  apply (loginUser_opens_session Fixture.isPasswordCorrect Fixture.jwt_verify
           Sample.generateAccessToken Sample.generateRefreshToken
           None (Some "bob@example.org") (Some "b") Sample.bob
           "access-bob" "refresh-bob-3"
           (mkTokenPayload (Some "64b000000000000000000002"))
           "access-bob" "refresh-bob-3" Sample.world);
    try reflexivity; try discriminate.
  simpl. repeat constructor; simpl; intuition discriminate.
Defined.

(** X10: logging out clears both cookies and removes the stored refresh
    token, after which no refresh token, however valid its signature, is
    accepted for that user: the exchange is refused with the 401 error
    "Refresh token is expired or used". *)
Theorem logoutUser_ends_session jwt_verify gA gR (id : ObjectId)
        (user : User.t) cookie body_token token payload w :
  find (fun u => User._id u =? id) (users w) = Some user ->
  Js.or_else cookie body_token = Some token ->
  token <> "" ->
  jwt_verify token = inr payload ->
  tp_id payload = Some id ->
  exists w',
    logoutUser id w
      = (Normal (mkReply 200 [("accessToken", ""); ("refreshToken", "")] 200
                   tt "User logged Out"), w') /\
    find (fun u => User._id u =? id) (users w')
      = Some (User.set_refreshToken None user) /\
    refreshAccessToken jwt_verify gA gR cookie body_token w'
      = (Throw (ApiError 401 "Refresh token is expired or used"), w').
Proof.
  intros Hfind Hin Htok Hjwt Hid.
  assert (Hnew : find (fun u => User._id u =? id)
                   (users (with_users
                             (update_first id (User.set_refreshToken None)
                                           (users w)) w))
                 = Some (User.set_refreshToken None user))
    by (simpl; now rewrite find_update_first, Hfind).
  eexists. split; [reflexivity|]. split; [exact Hnew|].
  unfold refreshAccessToken. rewrite Hin, (truthy_some _ Htok).
  run. rewrite Hjwt. run. rewrite Hid. unfold User_findById. run.
  now rewrite Hnew.
Qed.

Lemma logoutUser_ends_session_witness :
  exists w',
    logoutUser "64b000000000000000000001" Sample.world
      = (Normal (mkReply 200 [("accessToken", ""); ("refreshToken", "")] 200
                   tt "User logged Out"), w') /\
    find (fun u => User._id u =? "64b000000000000000000001") (users w')
      = Some (User.set_refreshToken None Sample.alice) /\
    refreshAccessToken Sample.jwt_verify Sample.generateAccessToken
                       Sample.generateRefreshToken
                       (Some "refresh-alice-2") None w'
      = (Throw (ApiError 401 "Refresh token is expired or used"), w').
Proof.
  apply (logoutUser_ends_session Sample.jwt_verify Sample.generateAccessToken
           Sample.generateRefreshToken "64b000000000000000000001"
           Sample.alice (Some "refresh-alice-2") None "refresh-alice-2"
           (mkTokenPayload (Some "64b000000000000000000001")) Sample.world);
    try reflexivity; discriminate.
Defined.

(** ** Registration *)

Lemma registerUser_refused_duplicate User_create fullName email password
      username otp w :
  existsb blank [fullName; email; password; username; otp] = false ->
  (exists u, In u (users w) /\
             (clause username (User.username u) = true \/
              clause email (User.email u) = true)) ->
  registerUser User_create fullName email password username otp true w
    = (Throw (ApiError 409 "User with email or username already exists"), w).
Proof.
  intros Hblank (u & Hin & Hu).
  unfold registerUser, User_findOne_or. rewrite Hblank. run.
  destruct (find _ (users w)) as [x|] eqn:Hfind; [reflexivity|].
  apply (find_none _ _ Hfind) in Hin.
  apply orb_false_iff in Hin as [H1 H2]. destruct Hu; congruence.
Qed.

(** X11: [registerUser] refuses, in this order and without creating
    anything, a request with a blank field (400 "All fields are required"), a
    request that did not pass OTP verification (400 "Invalid otp"), and a
    request whose username or email, compared as sent, is that of a stored
    user (409).  The fields are ASCII text. *)
Theorem registerUser_refusals User_create fullName email password username otp
        verified w :
  forallb ascii_field [fullName; email; password; username; otp] = true ->
  (existsb blank [fullName; email; password; username; otp] = true ->
   registerUser User_create fullName email password username otp verified w
     = (Throw (ApiError 400 "All fields are required"), w)) /\
  (existsb blank [fullName; email; password; username; otp] = false ->
   verified = false ->
   registerUser User_create fullName email password username otp verified w
     = (Throw (ApiError 400 "Invalid otp"), w)) /\
  (existsb blank [fullName; email; password; username; otp] = false ->
   verified = true ->
   (exists u, In u (users w) /\
              (clause username (User.username u) = true \/
               clause email (User.email u) = true)) ->
   registerUser User_create fullName email password username otp verified w
     = (Throw (ApiError 409 "User with email or username already exists"), w)).
Proof.
  intros _. unfold registerUser, User_findOne_or. repeat split.
  - intros ->. reflexivity.
  - intros -> ->. reflexivity.
  - intros -> -> (u & Hin & Hu). run.
    destruct (find _ (users w)) as [x|] eqn:Hfind; [reflexivity|].
    apply (find_none _ _ Hfind) in Hin.
    apply orb_false_iff in Hin as [H1 H2]. destruct Hu; congruence.
Qed.

Lemma registerUser_refusals_witness :
  registerUser Fixture.User_create (Some "Dan") (Some "dan@example.org")
               (Some "   ") (Some "dan") (Some "482913") true Sample.world
    = (Throw (ApiError 400 "All fields are required"), Sample.world) /\
  registerUser Fixture.User_create (Some "Dan") (Some "dan@example.org")
               (Some "pw") (Some "dan") (Some "482913") false Sample.world
    = (Throw (ApiError 400 "Invalid otp"), Sample.world) /\
  registerUser Fixture.User_create (Some "Dan") (Some "bob@example.org")
               (Some "pw") (Some "dan") (Some "482913") true Sample.world
    = (Throw (ApiError 409 "User with email or username already exists"),
       Sample.world).
Proof.
  split; [|split].
  - apply (registerUser_refusals Fixture.User_create (Some "Dan")
             (Some "dan@example.org") (Some "   ") (Some "dan")
             (Some "482913") true Sample.world eq_refl).
    reflexivity.
  - apply (registerUser_refusals Fixture.User_create (Some "Dan")
             (Some "dan@example.org") (Some "pw") (Some "dan")
             (Some "482913") false Sample.world eq_refl); reflexivity.
  - apply (registerUser_refusals Fixture.User_create (Some "Dan")
             (Some "bob@example.org") (Some "pw") (Some "dan")
             (Some "482913") true Sample.world eq_refl); try reflexivity.
    exists Sample.bob. split; [right; now left|now right].
Defined.

(** X12: a verified registration whose fields are ASCII text and not
    blank and whose username and email, as sent, belong to nobody hands the
    fields to [User.create] with
    the username in lower case, and answers 201 with the public view of the
    document stored under the new identifier. *)
Theorem registerUser_creates User_create fullName email password
        (username : string) otp (user createdUser : User.t) w w1 :
  forallb ascii_field [fullName; email; password; Some username; otp] = true ->
  existsb blank [fullName; email; password; Some username; otp] = false ->
  (forall u, In u (users w) ->
             User.username u <> username /\ clause email (User.email u) = false) ->
  User_create fullName email password (Js.toLowerCase username) w
    = (Normal user, w1) ->
  find (fun u => User._id u =? User._id user) (users w1) = Some createdUser ->
  registerUser User_create fullName email password (Some username) otp true w
    = (Normal (mkReply 201 [] 200 (select_public createdUser)
                       "User registered Successfully"), w1).
Proof.
  intros _ Hblank Hfree Hcreate Hfound.
  unfold registerUser, User_findOne_or. rewrite Hblank. run.
  assert (Hnone : find (fun u => clause (Some username) (User.username u)
                                 || clause email (User.email u))%bool
                       (users w) = None).
  { destruct (find _ (users w)) as [u|] eqn:Hfind; [|reflexivity].
    apply find_some in Hfind as [Hin Hu].
    destruct (Hfree u Hin) as [Hn He]. rewrite He, orb_false_r in Hu.
    simpl in Hu. apply String.eqb_eq in Hu. contradiction. }
  rewrite Hnone. run. rewrite Hcreate. unfold User_findById. run.
  now rewrite Hfound.
Qed.

Lemma registerUser_creates_witness :
  exists createdUser w1,
    registerUser Fixture.User_create (Some "Dan D") (Some "dan@example.org")
                 (Some "pw") (Some "DanD") (Some "482913") true Sample.world
      = (Normal (mkReply 201 [] 200 (select_public createdUser)
                         "User registered Successfully"), w1) /\
    User.username createdUser = "dand".
Proof.
  do 2 eexists. split.
  - eapply (registerUser_creates Fixture.User_create (Some "Dan D")
              (Some "dan@example.org") (Some "pw") "DanD" (Some "482913"));
      [reflexivity|reflexivity| |reflexivity|reflexivity].
    simpl. intros u [<-|[<-|[]]]; split; (discriminate || reflexivity).
  - reflexivity.
Defined.

(** X13: the two availability probes only read the store, and what they
    answer agrees with registration: when either probe reports the username
    or the email as taken, a verified registration with that username and
    email, and with fields that are ASCII text and not blank, is refused
    with the 409 error. *)
Theorem availability_agrees_with_registration User_create fullName
        (email : string) password (username : string) otp w :
  forallb ascii_field [fullName; Some email; password; Some username; otp]
    = true ->
  existsb blank [fullName; Some email; password; Some username; otp] = false ->
  snd (checkIfUsernameIsAvl username w) = w /\
  snd (checkIfEmailIsAvl email w) = w /\
  ((exists reply, fst (checkIfUsernameIsAvl username w) = Normal reply /\
                  rp_data reply = false) \/
   (exists reply, fst (checkIfEmailIsAvl email w) = Normal reply /\
                  rp_data reply = false) ->
   registerUser User_create fullName (Some email) password (Some username)
                otp true w
     = (Throw (ApiError 409 "User with email or username already exists"), w)).
Proof.
  intros Hascii Hblank.
  unfold checkIfUsernameIsAvl, checkIfEmailIsAvl. run.
  split; [now destruct (find _ (users w))|].
  split; [now destruct (find _ (users w))|].
  intros Htaken.
  apply (registerUser_refused_duplicate User_create fullName (Some email)
           password (Some username) otp w Hblank).
  destruct Htaken as [(reply & Hrun & Hdata)|(reply & Hrun & Hdata)].
  - destruct (find (fun u => User.username u =? username) (users w))
      as [u|] eqn:Hfind.
    + apply find_some in Hfind as [Hin Hu]. exists u. split; [exact Hin|now left].
    + simpl in Hrun. injection Hrun as <-. discriminate.
  - destruct (find (fun u => User.email u =? email) (users w))
      as [u|] eqn:Hfind.
    + apply find_some in Hfind as [Hin Hu]. exists u. split; [exact Hin|now right].
    + simpl in Hrun. injection Hrun as <-. discriminate.
Qed.

Lemma availability_agrees_with_registration_witness :
  snd (checkIfUsernameIsAvl "bob" Sample.world) = Sample.world /\
  snd (checkIfEmailIsAvl "dan@example.org" Sample.world) = Sample.world /\
  registerUser Fixture.User_create (Some "Dan") (Some "dan@example.org")
               (Some "pw") (Some "bob") (Some "482913") true Sample.world
    = (Throw (ApiError 409 "User with email or username already exists"),
       Sample.world).
Proof.
  destruct (availability_agrees_with_registration Fixture.User_create
              (Some "Dan") "dan@example.org" (Some "pw") "bob"
              (Some "482913") Sample.world) as (H1 & H2 & H3);
    [reflexivity|reflexivity|].
  split; [exact H1|]. split; [exact H2|].
  apply H3. left. eexists. split; reflexivity.
Defined.

(** ** Password and account details *)

(** X14: [changeCurrentPassword] completes only when both passwords are
    given, the model accepts the old one for the user and rejects the new
    one; it then replaces the password of that user alone and keeps the
    stored refresh token, so the open session survives.  Every refusal
    leaves the store unchanged. *)
Theorem changeCurrentPassword_outcomes isPasswordCorrect stored_password
        (id : ObjectId) oldPassword newPassword w c w' :
  changeCurrentPassword isPasswordCorrect stored_password id
                        oldPassword newPassword w = (c, w') ->
  match c with
  | Throw _ => w' = w
  | Normal reply =>
      reply = mkReply 200 [] 200 tt "Password changed successfully" /\
      exists user new,
        newPassword = Some new /\ new <> "" /\
        find (fun u => User._id u =? id) (users w) = Some user /\
        isPasswordCorrect user oldPassword = inr true /\
        isPasswordCorrect user newPassword = inr false /\
        find (fun u => User._id u =? id) (users w')
          = Some (set_password (stored_password new) user) /\
        User.refreshToken (set_password (stored_password new) user)
          = User.refreshToken user /\
        forall other, other <> id ->
          find (fun u => User._id u =? other) (users w')
            = find (fun u => User._id u =? other) (users w)
  end.
Proof.
  unfold changeCurrentPassword, User_findById. run.
  destruct (Js.truthy oldPassword) eqn:Hold; simpl;
    [|intros [= <- <-]; reflexivity].
  destruct (Js.truthy newPassword) eqn:Hnew; simpl;
    [|intros [= <- <-]; reflexivity].
  destruct newPassword as [new|]; [|discriminate].
  assert (Hne : new <> "")
    by (simpl in Hnew; now destruct (String.eqb_spec new "")).
  destruct (find _ (users w)) as [user|] eqn:Hfind;
    [|intros [= <- <-]; reflexivity].
  apply find_some in Hfind as Hu. destruct Hu as [_ Hid].
  apply String.eqb_eq in Hid.
  destruct (isPasswordCorrect user oldPassword) as [e|[|]] eqn:Hpo; simpl;
    try (intros [= <- <-]; reflexivity);
    destruct (isPasswordCorrect user (Some new)) as [e'|[|]] eqn:Hpn; simpl;
    try (intros [= <- <-]; reflexivity).
  intros [= <- <-]. split; [reflexivity|].
  exists user, new. rewrite Hid. repeat split; try assumption.
  - simpl. now rewrite find_update_first, Hfind.
  - intros other Hother. simpl. now apply find_update_first_other.
Qed.

Lemma changeCurrentPassword_outcomes_witness :
  exists w',
    changeCurrentPassword Fixture.isPasswordCorrect Fixture.stored_password
                          "64b000000000000000000001" (Some "a") (Some "z")
                          Sample.world
      = (Normal (mkReply 200 [] 200 tt "Password changed successfully"), w') /\
    find (fun u => User._id u =? "64b000000000000000000001") (users w')
      = Some (set_password "hash-z" Sample.alice) /\
    find (fun u => User._id u =? "64b000000000000000000002") (users w')
      = Some Sample.bob.
Proof.
  pose proof (changeCurrentPassword_outcomes Fixture.isPasswordCorrect
                Fixture.stored_password "64b000000000000000000001"
                (Some "a") (Some "z") Sample.world _ _ eq_refl) as H.
  cbv beta iota in H.
  destruct H as (_ & user & new & [= <-] & _ & [= <-] & _ & _ & Hnew & _ & Hother).
  eexists. split; [cbv; reflexivity|]. split; [exact Hnew|].
  rewrite Hother; [reflexivity|discriminate].
Defined.

(** X15: [updateAccountDetails] refuses a missing or empty full name or
    email with the 400 error and changes nothing.  Otherwise, for an
    identifier no user has, it answers 200 without a document and the store
    is unchanged; for an existing user and an email that another user holds,
    the store refuses the update and nothing is written; in every other case
    it answers 200 with the updated document and rewrites these two fields
    of that user, every other user being left as it was. *)
Theorem updateAccountDetails_outcomes (id : ObjectId) fullName email w :
  match Js.truthy fullName, Js.truthy email with
  | true, true =>
      exists fn em,
        fullName = Some fn /\ email = Some em /\
        match find (fun u => User._id u =? id) (users w) with
        | None =>
            updateAccountDetails id fullName email w
              = (Normal (mkReply 200 [] 200 None
                           "Account details updated successfully"), w)
        | Some user =>
            if email_of_another id em w
            then exists e,
                   updateAccountDetails id fullName email w = (Throw e, w)
            else exists w',
                   updateAccountDetails id fullName email w
                     = (Normal (mkReply 200 [] 200
                                  (Some (select_without_password
                                           (set_account fn em user)))
                                  "Account details updated successfully"),
                        w') /\
                   find (fun u => User._id u =? id) (users w')
                     = Some (set_account fn em user) /\
                   forall other, other <> id ->
                     find (fun u => User._id u =? other) (users w')
                       = find (fun u => User._id u =? other) (users w)
        end
  | _, _ =>
      updateAccountDetails id fullName email w
        = (Throw (ApiError 400 "All fields are required"), w)
  end.
Proof.
  unfold updateAccountDetails.
  destruct (Js.truthy fullName) eqn:Hfn; [|reflexivity].
  destruct (Js.truthy email) eqn:Hem; [|reflexivity].
  destruct fullName as [fn|]; [|discriminate].
  destruct email as [em|]; [|discriminate].
  exists fn, em. split; [reflexivity|]. split; [reflexivity|].
  unfold User_updateAccount, User_findByIdAndUpdate, User_findById. run.
  destruct (find _ (users w)) as [user|] eqn:Hfind.
  - destruct (email_of_another id em w); run.
    + eexists. reflexivity.
    + rewrite Hfind. eexists. split; [reflexivity|]. split.
      * simpl. now rewrite find_update_first, Hfind.
      * intros other Hother. simpl. now apply find_update_first_other.
  - run. rewrite Hfind, (update_first_absent _ _ _ Hfind), with_users_same.
    reflexivity.
Qed.

(** ** Profile images, continued *)

(** X16: [updateUserAvatar] never answers and never updates a user: for
    every request it ends by throwing, and the users collection is what it
    was. *)
Theorem updateUserAvatar_always_throws secure_url_of (user_id : ObjectId)
        (file : option File.t) (w : World) :
  exists e w',
    updateUserAvatar secure_url_of user_id file w = (Throw e, w') /\
    users w' = users w.
Proof.
  unfold updateUserAvatar, cloudinary_upload, cloudinary_delete, unlinkSync,
    User_findById, ture.
  destruct file as [file|]; cbn [option_map]; [|do 2 eexists; now split].
  run. destruct (Js.truthy (Some (File.path file))); simpl;
    [|do 2 eexists; now split].
  destruct (Js.includes (File.mimetype file) "image"); simpl.
  - destruct (Js.truthy (secure_url_of _ _)); simpl;
      [|do 2 eexists; now split].
    destruct (find _ (users w)); simpl; do 2 eexists; now split.
  - destruct (existsb _ (disk w)); simpl; do 2 eexists; now split.
Qed.

(** X17: an avatar file whose mimetype does not contain "image" is refused
    with the 400 error "Only images are allowed to upload" after its
    temporary copy has been removed from the disk; nothing is sent to the
    CDN and no user is touched. *)
Theorem updateUserAvatar_rejects_non_image secure_url_of (user_id : ObjectId)
        (file : File.t) (w : World) :
  File.path file <> "" ->
  In (File.path file) (disk w) ->
  Js.includes (File.mimetype file) "image" = false ->
  exists w',
    updateUserAvatar secure_url_of user_id (Some file) w
      = (Throw (ApiError 400 "Only images are allowed to upload"), w') /\
    ~ In (File.path file) (disk w') /\
    (forall p, p <> File.path file -> In p (disk w) -> In p (disk w')) /\
    cdn_uploads w' = cdn_uploads w /\ cdn_deleted w' = cdn_deleted w /\
    users w' = users w.
Proof.
  intros Hpath Hdisk Hmime. unfold updateUserAvatar.
  cbn [option_map]. rewrite (truthy_some _ Hpath), Hmime. run.
  rewrite (unlinkSync_present _ _ Hdisk).
  eexists. split; [reflexivity|]. split; [apply filter_out_absent|].
  split; [|now repeat split].
  intros p Hp Hin. simpl. apply filter_In. split; [exact Hin|].
  now destruct (String.eqb_spec p (File.path file)).
Qed.

Lemma updateUserAvatar_rejects_non_image_witness :
  exists w',
    updateUserAvatar Sample.secure_url_of "64b000000000000000000001"
                     (Some (File.mk "uploads/tmp-1" "application/pdf"))
                     Sample.world
      = (Throw (ApiError 400 "Only images are allowed to upload"), w') /\
    ~ In "uploads/tmp-1" (disk w') /\
    cdn_uploads w' = [] /\ users w' = users Sample.world.
Proof.
  destruct (updateUserAvatar_rejects_non_image Sample.secure_url_of
              "64b000000000000000000001"
              (File.mk "uploads/tmp-1" "application/pdf") Sample.world)
    as (w' & Hrun & Hgone & _ & Hup & _ & Husers).
  - discriminate.
  - now left.
  - reflexivity.
  - exists w'. now repeat split.
Defined.

(** X18: a cover update with an image that is not a GIF, an upload that
    succeeds and an existing user answers 200 with the updated document,
    whose cover image is the new secure URL, and stores it; the previous
    cover, when the user had one, is then deleted from the CDN, and only
    then. *)
Theorem updateUserCoverImage_returns_updated secure_url_of (user_id : ObjectId)
        (file : File.t) (url : string) (oldUser : User.t) (w : World) :
  File.path file <> "" ->
  Js.includes (File.mimetype file) "gif" = false ->
  Js.includes (File.mimetype file) "image" = true ->
  secure_url_of (File.path file) "videotube/users" = Some url ->
  url <> "" ->
  find (fun u => User._id u =? user_id) (users w) = Some oldUser ->
  exists w',
    updateUserCoverImage secure_url_of user_id (Some file) w
      = (Normal (mkResponse 200 []
                   (mkApiResponse 200
                      (PUser (Some (select_without_password
                                      (User.set_coverImage url oldUser))))
                      (Some "coverImage updated successfully"))), w') /\
    find (fun u => User._id u =? user_id) (users w')
      = Some (User.set_coverImage url oldUser) /\
    uv_coverImage (select_without_password (User.set_coverImage url oldUser))
      = Some url /\
    cdn_deleted w'
      = (if Js.truthy (User.coverImage oldUser)
         then match User.coverImage oldUser with
              | Some c => c :: cdn_deleted w
              | None => cdn_deleted w
              end
         else cdn_deleted w) /\
    cdn_uploads w' = (File.path file, "videotube/users") :: cdn_uploads w.
Proof.
  intros Hpath Hgif Himg Hup Hurl Hfind.
  unfold updateUserCoverImage. cbn [option_map].
  rewrite (truthy_some _ Hpath), Hgif, Himg.
  unfold cloudinary_upload, cloudinary_delete, User_findByIdAndUpdate,
    User_findById. run.
  rewrite Hup, (truthy_some _ Hurl). run.
  cbn [users with_cdn_uploads with_disk]. rewrite Hfind.
  destruct (User.coverImage oldUser) as [c|] eqn:Hc;
    [destruct (Js.truthy (Some c)) eqn:Hcover|cbn [Js.truthy]]; run;
    cbn [users with_cdn_uploads with_cdn_deleted with_disk]; rewrite ?Hfind;
    (eexists; split; [reflexivity|]);
    (split; [simpl; now rewrite find_update_first, Hfind|]);
    now repeat split.
Qed.

Lemma updateUserCoverImage_returns_updated_witness :
  exists w',
    updateUserCoverImage Sample.secure_url_of "64b000000000000000000002"
                         (Some (File.mk "uploads/tmp-1" "image/png"))
                         Sample.world
      = (Normal (mkResponse 200 []
                   (mkApiResponse 200
                      (PUser (Some (select_without_password
                                      (User.set_coverImage
                                         "https://cdn/videotube/users/uploads/tmp-1"
                                         Sample.bob))))
                      (Some "coverImage updated successfully"))), w') /\
    cdn_deleted w' = ["https://cdn/bob-cover.png"].
Proof.
  destruct (updateUserCoverImage_returns_updated Sample.secure_url_of
              "64b000000000000000000002" (File.mk "uploads/tmp-1" "image/png")
              "https://cdn/videotube/users/uploads/tmp-1" Sample.bob
              Sample.world)
    as (w' & Hrun & _ & _ & Hdel & _);
    try reflexivity; try discriminate.
  exists w'. split; [exact Hrun|exact Hdel].
Defined.

(** X19: whenever [updateUserCoverImage] fails, whether the file is
    missing, refused or the upload gives no URL, no user has been changed
    and nothing has been deleted from the CDN: the old cover is kept. *)
Theorem updateUserCoverImage_failure_keeps_old secure_url_of
        (user_id : ObjectId) (file : option File.t) (w : World) e w' :
  updateUserCoverImage secure_url_of user_id file w = (Throw e, w') ->
  users w' = users w /\ cdn_deleted w' = cdn_deleted w.
Proof.
  unfold updateUserCoverImage, cloudinary_upload, cloudinary_delete,
    unlinkSync, User_findByIdAndUpdate, User_findById.
  destruct file as [file|]; cbn [option_map]; [|intros [= <- <-]; now split].
  run. destruct (Js.truthy (Some (File.path file))); simpl;
    [|intros [= <- <-]; now split].
  destruct (Js.includes (File.mimetype file) "gif"
            || negb (Js.includes (File.mimetype file) "image"))%bool; simpl.
  - destruct (existsb _ (disk w)); simpl; intros [= <- <-]; now split.
  - destruct (Js.truthy (secure_url_of _ _)); simpl;
      [|intros [= <- <-]; now split].
    destruct (find _ (users w)) as [u|]; simpl; [|discriminate].
    destruct (Js.truthy (User.coverImage u)); simpl; discriminate.
Qed.

Lemma updateUserCoverImage_failure_keeps_old_witness :
  let w' := with_disk []
              (with_cdn_uploads [("uploads/tmp-1", "videotube/users")]
                                Sample.world) in
  users w' = users Sample.world /\
  cdn_deleted w' = cdn_deleted Sample.world.
Proof.
  apply (updateUserCoverImage_failure_keeps_old (fun _ _ => None)
           "64b000000000000000000002"
           (Some (File.mk "uploads/tmp-1" "image/png")) Sample.world
           (ApiError 500 "Error while uploading cover image")).
  reflexivity.
Defined.

(** ** Watch history, continued *)

Lemma sort_createdAt_desc_Forall (P : Video.t -> Prop) (l : list Video.t) :
  Forall P l -> Forall P (sort_createdAt_desc l).
Proof.
  assert (Hins : forall v s, P v -> Forall P s ->
                             Forall P (insert_createdAt_desc v s)).
  { intros v s Hv Hs. induction Hs as [|x s Hx Hs IH]; simpl.
    - now repeat constructor.
    - destruct (Video.createdAt x <? Video.createdAt v)%Z;
        repeat constructor; assumption. }
  intros Hl. induction Hl as [|v l Hv _ IH]; simpl; [constructor|].
  now apply Hins.
Qed.

(** X20: [getWatchHistory] only reads.  For a page and a limit that are
    absent or ASCII text, and whose values multiply to less than 2^53, it
    throws only for an unknown user, the 404 error "User does not exists",
    whatever the pagination; for a known user it answers either 400, or 200
    with at most [limit] video summaries, all of published videos. *)
Theorem getWatchHistory_outcomes (user_id : ObjectId)
        (query_page query_limit : option string) (w : World) c w' :
  ascii_field query_page = true ->
  ascii_field query_limit = true ->
  (Z.abs (Js.num_or (Js.parseInt query_page) 1)
   * Z.abs (Js.num_or (Js.parseInt query_limit) 10) < 2 ^ 53)%Z ->
  getWatchHistory user_id query_page query_limit w = (c, w') ->
  w' = w /\
  match c with
  | Throw e =>
      e = ApiError 404 "User does not exists" /\
      find (fun u => User._id u =? user_id) (users w) = None
  | Normal r =>
      find (fun u => User._id u =? user_id) (users w) <> None /\
      (status r = 400%Z \/
       exists out,
         r = mkResponse 200 []
               (mkApiResponse 200 (PVideos out)
                              (Some "Watch history fetched successfully")) /\
         length out <= Z.to_nat (Js.num_or (Js.parseInt query_limit) 10) /\
         Forall (fun s => vs_isPublished s = true) out)
  end.
Proof.
  intros _ _ _. unfold getWatchHistory, User_findById. run.
  destruct (find _ (users w)) as [u|]; run;
    [|intros [= <- <-]; now repeat split].
  destruct ((_ <? 1)%Z || (_ <? 1)%Z)%bool; run; intros [= <- <-];
    (split; [reflexivity|]); (split; [discriminate|]); [now left|right].
  eexists. split; [reflexivity|].
  unfold watchHistory_pipeline.
  set (roots := concat _).
  assert (Hpub : Forall (fun s => vs_isPublished s = true) roots).
  { unfold roots. apply Forall_concat, Forall_map, Forall_forall.
    intros id _. unfold lookup_videos. apply Forall_map.
    apply sort_createdAt_desc_Forall, Forall_forall. intros v Hv.
    now apply filter_In in Hv as [_ Hv]. }
  set (page := firstn _ _).
  assert (Hlen : length page
                 <= Z.to_nat (Js.num_or (Js.parseInt query_limit) 10))
    by (unfold page; apply firstn_le_length).
  assert (Hpage : Forall (fun s => vs_isPublished s = true) page)
    by (unfold page; now apply Forall_page).
  destruct page; [split; [simpl; lia|constructor]|now split].
Qed.

Lemma getWatchHistory_outcomes_witness :
  Sample.world = Sample.world /\
  ApiError 404 "User does not exists" = ApiError 404 "User does not exists" /\
  find (fun u => User._id u =? "64b0000000000000000000ff") (users Sample.world)
    = None.
Proof.
  apply (getWatchHistory_outcomes "64b0000000000000000000ff" (Some "-3") None
           Sample.world (Throw (ApiError 404 "User does not exists")));
    reflexivity.
Defined.

(** X22: a page past the end of the history is empty, not an error: with
    unique identifiers, a page and a limit that are absent or ASCII text and
    whose values multiply to less than 2^53, when [(page - 1) * limit] is at
    least the length of the stored sequence, the answer is 200 with no
    video.  A viewer who has watched nothing gets this for every such
    page. *)
Theorem getWatchHistory_past_the_end (w : World) (u : User.t)
        (query_page query_limit : option string) :
  unique_ids w ->
  In u (users w) ->
  ascii_field query_page = true ->
  ascii_field query_limit = true ->
  let page := Js.num_or (Js.parseInt query_page) 1 in
  let limit := Js.num_or (Js.parseInt query_limit) 10 in
  (1 <= page)%Z -> (1 <= limit)%Z ->
  (page * limit < 2 ^ 53)%Z ->
  (Z.of_nat (length (User.watchHistory u)) <= (page - 1) * limit)%Z ->
  getWatchHistory (User._id u) query_page query_limit w
    = (Normal (mkResponse 200 []
                 (mkApiResponse 200 (PVideos [])
                    (Some "Watch history fetched successfully"))), w).
Proof.
  intros [Hu Hv] Hin _ _ page limit Hpage Hlimit _ Hpast.
  rewrite (getWatchHistory_run w u query_page query_limit Hu Hin Hpage Hlimit).
  fold page limit.
  assert (Hlen : length (concat (map (lookup_videos w)
                                     (rev (User.watchHistory u))))
                 <= length (User.watchHistory u)).
  { rewrite <- (length_map vs_id), (joined_ids _ _ Hv).
    etransitivity; [apply filter_length_le|]. now rewrite length_rev. }
  rewrite skipn_all2 by lia. now destruct (Z.to_nat limit).
Qed.

Lemma getWatchHistory_past_the_end_witness :
  getWatchHistory "64b000000000000000000001" (Some "2") (Some "3") Sample.world
    = (Normal (mkResponse 200 []
                 (mkApiResponse 200 (PVideos [])
                    (Some "Watch history fetched successfully"))),
       Sample.world) /\
  getWatchHistory "64b000000000000000000002" None None Sample.world
    = (Normal (mkResponse 200 []
                 (mkApiResponse 200 (PVideos [])
                    (Some "Watch history fetched successfully"))),
       Sample.world).
Proof.
  assert (Hids : unique_ids Sample.world)
    by (split; simpl; repeat constructor; simpl; intuition discriminate).
  split.
  - apply (getWatchHistory_past_the_end Sample.world Sample.alice
             (Some "2") (Some "3") Hids);
      [now left|reflexivity|reflexivity|simpl; lia..].
  - apply (getWatchHistory_past_the_end Sample.world Sample.bob
             None None Hids);
      [right; now left|reflexivity|reflexivity|simpl; lia..].
Defined.

(** ** Push to history, continued *)

(** X23: when [pushVideoToWatchHistory] answers, it has appended the
    identifier of a video that is in the store and published to the history
    of the requesting user, and to no other document: every other user and
    the videos are as before.  When it throws, the error has status 400 and
    nothing has changed. *)
Theorem pushVideoToWatchHistory_outcomes isValidObjectId castObjectId
        (user_id : ObjectId) (videoId : string) (w : World) c w' :
  pushVideoToWatchHistory isValidObjectId castObjectId user_id videoId w
    = (c, w') ->
  match c with
  | Throw e => (exists m, e = ApiError 400 m) /\ w' = w
  | Normal r =>
      exists user video,
        isValidObjectId videoId = true /\
        In video (videos w) /\ Video.isPublished video = true /\
        Video._id video = castObjectId videoId /\
        find (fun u => User._id u =? user_id) (users w) = Some user /\
        find (fun u => User._id u =? user_id) (users w')
          = Some (User.push_watchHistory (Video._id video) user) /\
        ar_data (body r)
          = PHistory (mkHistoryView (User._id user) (User.username user)
                        (User.watchHistory user ++ [Video._id video])) /\
        (forall other, other <> user_id ->
           find (fun u => User._id u =? other) (users w')
             = find (fun u => User._id u =? other) (users w)) /\
        videos w' = videos w
  end.
Proof.
  unfold pushVideoToWatchHistory, Video_findOne_published,
    User_findByIdAndUpdate, User_findById. run.
  destruct (isValidObjectId videoId) eqn:Hvalid; run;
    [|intros [= <- <-]; split; [eauto|reflexivity]].
  destruct (find _ (videos w)) as [video|] eqn:Hvideo; run;
    [|intros [= <- <-]; split; [eauto|reflexivity]].
  apply find_some in Hvideo as [Hin Hok].
  apply andb_true_iff in Hok as [Hid Hpub]. apply String.eqb_eq in Hid.
  destruct (find _ (users w)) as [user|] eqn:Huser; run; intros [= <- <-].
  - exists user, video. repeat split; try assumption.
    + simpl. now rewrite find_update_first, Huser.
    + intros other Hother. simpl. now apply find_update_first_other.
  - split; [eauto|]. rewrite (update_first_absent _ _ _ Huser).
    apply with_users_same.
Qed.

Lemma pushVideoToWatchHistory_outcomes_witness :
  (exists m, ApiError 400 "User not found" = ApiError 400 m) /\
  Sample.world = Sample.world.
Proof.
  apply (pushVideoToWatchHistory_outcomes Sample.isValidObjectId
           Sample.castObjectId "64b0000000000000000000ff"
           "65c00000000000000000000a" Sample.world
           (Throw (ApiError 400 "User not found"))).
  vm_compute. reflexivity.
Defined.

(** ** Channel profile, continued *)

(** X24: [getUserChannelProfile] only reads.  For an absent or ASCII
    username, it throws the 400 error
    "username is missing" exactly for an absent or blank username and
    otherwise either the 404 error or a 200 answer, in which the channel is
    named by the lower-cased request and [isSubscribed] is never true with a
    subscriber count of zero. *)
Theorem getUserChannelProfile_outcomes (username : option string)
        (viewer : option ObjectId) (w : World) c w' :
  ascii_field username = true ->
  getUserChannelProfile username viewer w = (c, w') ->
  w' = w /\
  match c with
  | Throw e =>
      (e = ApiError 400 "username is missing" /\
       Js.truthy (option_map Js.trim username) = false) \/
      (e = ApiError 404 "channel does not exists" /\
       Js.truthy (option_map Js.trim username) = true)
  | Normal r =>
      exists name p,
        username = Some name /\
        r = mkResponse 200 []
              (mkApiResponse 200 (PChannel p)
                             (Some "User channel fetched successfully")) /\
        cp_username p = Js.toLowerCase name /\
        (cp_isSubscribed p = true -> 1 <= cp_subscribersCount p)
  end.
Proof.
  intros _. unfold getUserChannelProfile. run.
  destruct (Js.truthy (option_map Js.trim username)) eqn:Hname; run;
    [|intros [= <- <-]; split; [reflexivity|now left]].
  destruct username as [name|]; [|discriminate].
  unfold channel_pipeline.
  destruct (filter _ (users w)) as [|u us] eqn:Hmatch; simpl;
    intros [= <- <-]; (split; [reflexivity|]); [now right|].
  exists name. eexists. split; [reflexivity|]. split; [reflexivity|].
  assert (Hu : In u (filter (fun u => User.username u =? Js.toLowerCase name)
                            (users w))) by (rewrite Hmatch; now left).
  apply filter_In in Hu as [_ Hu]. apply String.eqb_eq in Hu.
  split; [exact Hu|].
  unfold channel_document. simpl.
  destruct (filter _ (subscriptions w)); simpl; [discriminate|lia].
Qed.

Lemma getUserChannelProfile_outcomes_witness :
  Sample.world = Sample.world /\
  ((ApiError 400 "username is missing" = ApiError 400 "username is missing" /\
    Js.truthy (option_map Js.trim (Some "   ")) = false) \/
   (ApiError 400 "username is missing" = ApiError 404 "channel does not exists"
    /\ Js.truthy (option_map Js.trim (Some "   ")) = true)).
Proof.
  apply (getUserChannelProfile_outcomes (Some "   ")
           (Some "64b000000000000000000001") Sample.world
           (Throw (ApiError 400 "username is missing"))).
  - reflexivity.
  - reflexivity.
Defined.

(** ** Pagination guard *)

Lemma num_or_below_one (n : option Z) (d : Z) :
  (1 <= d)%Z ->
  (Js.num_or n d <? 1)%Z = true <-> exists p, n = Some p /\ (p < 0)%Z.
Proof.
  intros Hd. unfold Js.num_or. destruct n as [p|].
  - destruct (Z.eqb_spec p 0) as [->|Hp]; rewrite Z.ltb_lt; split.
    + lia.
    + intros (q & [= <-] & Hq). lia.
    + intros H. exists p. split; [reflexivity|lia].
    + intros (q & [= <-] & Hq). lia.
  - rewrite Z.ltb_lt. split; [lia|]. intros (q & Hq & _). discriminate.
Qed.

(** X21: for a known user and a page and a limit that are absent or ASCII
    text, the 400 answer "Page and limit must be positive integers" is given
    exactly when the page or the limit parses to a negative integer; a
    missing, non-numeric or zero value is replaced by the default and never
    refused. *)
Theorem getWatchHistory_refuses_exactly_negatives (w : World)
        (user_id : ObjectId) (user : User.t)
        (query_page query_limit : option string) :
  ascii_field query_page = true ->
  ascii_field query_limit = true ->
  find (fun u => User._id u =? user_id) (users w) = Some user ->
  getWatchHistory user_id query_page query_limit w
    = (Normal (mkResponse 400 []
                 (mkApiResponse 400
                    (PText "Page and limit must be positive integers") None)),
       w)
  <->
  (exists p, Js.parseInt query_page = Some p /\ (p < 0)%Z) \/
  (exists l, Js.parseInt query_limit = Some l /\ (l < 0)%Z).
Proof.
  intros _ _ Hfind. unfold getWatchHistory, User_findById. run.
  rewrite Hfind. run.
  rewrite <- (num_or_below_one (Js.parseInt query_page) 1) by lia.
  rewrite <- (num_or_below_one (Js.parseInt query_limit) 10) by lia.
  rewrite <- orb_true_iff.
  destruct ((_ <? 1)%Z || (_ <? 1)%Z)%bool; run; split;
    solve [reflexivity | discriminate].
Qed.

Lemma getWatchHistory_refuses_exactly_negatives_witness :
  getWatchHistory "64b000000000000000000001" (Some "abc") (Some "-5")
                  Sample.world
    = (Normal (mkResponse 400 []
                 (mkApiResponse 400
                    (PText "Page and limit must be positive integers") None)),
       Sample.world).
Proof.
  apply (getWatchHistory_refuses_exactly_negatives Sample.world
           "64b000000000000000000001" Sample.alice (Some "abc") (Some "-5")).
  - reflexivity.
  - reflexivity.
  - reflexivity.
  - right. exists (-5)%Z. split; [reflexivity|lia].
Defined.
